(** * StockProject: DCF valuation with a news-sentiment adjustment

    A shallow embedding of [StockProject.py] and the properties of its
    valuation pipeline.

    Numbers.  The program computes in double precision.  Its numbers are
    embedded as exact rationals [Q], compared with [==]: the main model is
    the program in exact arithmetic, without rounding, underflow or
    overflow, and a property that holds only there says so.  A division
    whose divisor is zero has no rational value; in the main model it ends
    the computation with [ZeroDivisionError], as [/] does on Python
    numbers.  On the NumPy float64 values that the cells of a pandas
    statement are, the same division yields an infinity or NaN instead:
    module [Np] embeds the valuation for them, exact on finite values.
    Module [F] embeds the projection on IEEE binary64 values, for what
    rounding and underflow do.

    Effects.  Exceptions are explicit: a computation returns [Ok v] or
    [Raise e].  The external collaborators (market data, HTTP, polarity
    scoring) are parameters.  Console output and the chart are not part of
    the results and are left out, except that [evaluate_security] returns
    the figures it prints and plots. *)

From Stdlib Require Import PrimFloat.
From Stdlib Require Import List String ZArith QArith Qpower Qfield Bool Lia Lqa.
Import ListNotations.

Open Scope Q_scope.

(** ** Python runtime *)

Module Py.

Inductive exn : Type :=
| ZeroDivisionError
| IndexError
| KeyError
| ValueError
| TypeError
| OverflowError
| ConnectionError.

Inductive result (A : Type) : Type :=
| Ok (a : A)
| Raise (e : exn).

Arguments Ok {A} a.
Arguments Raise {A} e.

Definition bind {A B : Type} (c : result A) (k : A -> result B) : result B :=
  match c with
  | Ok a => k a
  | Raise e => Raise e
  end.

(** [try: c  except Exception: return None], seen from the caller. *)
Definition try_or_None {A : Type} (c : result A) : option A :=
  match c with
  | Ok a => Some a
  | Raise _ => None
  end.

(** A list comprehension whose element expression may raise: elements are
    evaluated left to right and the first exception ends the comprehension. *)
Fixpoint comprehension {A B : Type} (f : A -> result B) (xs : list A)
  : result (list B) :=
  match xs with
  | [] => Ok []
  | x :: xs' =>
      bind (f x) (fun y =>
      bind (comprehension f xs') (fun ys => Ok (y :: ys)))
  end.

(** [x > 0] is [Qltb 0 x]. *)
Definition Qltb (x y : Q) : bool := negb (Qle_bool y x).

(** [x / y] on Python numbers, in exact arithmetic; [Np.div] is the
    division of NumPy float64 values, which does not raise. *)
Definition div (x y : Q) : result Q :=
  if Qeq_bool y 0 then Raise ZeroDivisionError else Ok (x / y).

(** [x ** i] for an integer exponent, in exact arithmetic; only exponents
    [i >= 1] occur.  [F.pow] is the power in double precision. *)
Definition pow (x : Q) (i : Z) : Q := x ^ i.

(** [range(a, b)] *)
Definition range (a b : Z) : list Z :=
  map (fun k => (a + Z.of_nat k)%Z) (seq 0 (Z.to_nat (b - a))).

(** [enumerate(xs, start)] *)
Fixpoint enumerate {A : Type} (xs : list A) (start : Z) : list (Z * A) :=
  match xs with
  | [] => []
  | x :: xs' => (start, x) :: enumerate xs' (start + 1)
  end.

(** [xs[-1]] *)
Fixpoint last_item {A : Type} (xs : list A) : result A :=
  match xs with
  | [] => Raise IndexError
  | [x] => Ok x
  | _ :: xs' => last_item xs'
  end.

(** [xs[0]] *)
Definition first_item {A : Type} (xs : list A) : result A :=
  match xs with
  | [] => Raise IndexError
  | x :: _ => Ok x
  end.

(** [sum(xs)]: starts from [0] and adds from the left. *)
Definition sum (xs : list Q) : Q := fold_left Qplus xs 0.

(** [len(xs)] *)
Definition len {A : Type} (xs : list A) : Z := Z.of_nat (List.length xs).

(** [d.get(key, default)] on a dict with string keys. *)
Fixpoint dict_get {A : Type} (d : list (string * A)) (key : string) (default : A) : A :=
  match d with
  | [] => default
  | (k, v) :: d' => if String.eqb k key then v else dict_get d' key default
  end.

End Py.

Import Py.

Notation "x <- c ;; k" := (bind c (fun x => k))
  (at level 61, c at next level, right associativity).

(** ** Financial statements *)

(** A [pandas.DataFrame] of a statement: row labels ([index]), period labels
    ([columns]) and the amount of each cell. *)
Record DataFrame : Type := mkDataFrame {
  index : list string;
  columns : list string;
  cell : string -> string -> Q
}.

Definition mem (s : string) (l : list string) : bool := existsb (String.eqb s) l.

(** [statement.loc[label][col]] for a label of the index: the row of [label]
    is a series keyed by the columns, and looking up a period that is not
    one of them raises [KeyError]. *)
Definition loc (statement : DataFrame) (label col : string) : result Q :=
  if mem col (columns statement) then Ok (cell statement label col)
  else Raise KeyError.

Fixpoint safe_get (statement : DataFrame) (possible_labels : list string) (col : string)
  : result Q :=
  match possible_labels with
  | [] => Ok 0
  | label :: rest =>
      if mem label (index statement) then loc statement label col
      else safe_get statement rest col
  end.

(** ** Market data and free cash flow *)

(** What [yf.Ticker(ticker)] gives access to; each property is fetched on
    access and the fetch may fail. *)
Record Ticker : Type := mkTicker {
  financials : result DataFrame;
  cashflow : result DataFrame;
  info : result (list (string * Q))
}.

Definition ebit_labels : list string := ["Operating Income"; "EBIT"]%string.
Definition depreciation_labels : list string :=
  ["Depreciation"; "Depreciation & Amortization"]%string.
Definition capex_labels : list string :=
  ["Capital Expenditures"; "Capital expenditure"]%string.
Definition wc_labels : list string :=
  ["Change in Working Capital"; "Changes in working capital"]%string.

(** The body of the [try] block of [calculate_fcf]. *)
Definition fcf_body (company : Ticker) : result Q :=
  income_stmt <- financials company ;;
  cashflow_stmt <- cashflow company ;;
  latest_year <- first_item (columns income_stmt) ;;
  ebit <- safe_get income_stmt ebit_labels latest_year ;;
  depreciation <- safe_get cashflow_stmt depreciation_labels latest_year ;;
  capex <- safe_get cashflow_stmt capex_labels latest_year ;;
  wc_change <- safe_get cashflow_stmt wc_labels latest_year ;;
  Ok (ebit + depreciation - capex - wc_change).

(** The result record of [discounted_cash_flow_analysis], a 5-tuple in the
    source. *)
Record Valuation : Type := mkValuation {
  intrinsic_value : Q;
  market_cap : Q;
  upside : Q;
  discounted_fcfs : list Q;
  discounted_terminal_value : Q
}.

Definition future_fcfs_of (fcf : Q) (years : Z) (growth_rate : Q) : list Q :=
  map (fun i => fcf * pow (1 + growth_rate) i) (range 1 (years + 1)).

Definition discounted_fcfs_of (future_fcfs : list Q) (discount_rate : Q)
  : result (list Q) :=
  comprehension (fun p : Z * Q => let (i, f) := p in div f (pow (1 + discount_rate) i))
                (enumerate future_fcfs 1).

(** [((intrinsic_value - market_cap) / market_cap) * 100 if market_cap > 0 else 0] *)
Definition upside_of (intrinsic_value market_cap : Q) : result Q :=
  if Qltb 0 market_cap then
    q <- div (intrinsic_value - market_cap) market_cap ;;
    Ok (q * 100)
  else Ok 0.

(** The intermediate values of lines 51-57 of the source. *)
Record Projection : Type := mkProjection {
  future_fcfs : list Q;
  discounted : list Q;
  terminal_value : Q;
  discounted_tv : Q;
  intrinsic : Q
}.

(** Lines 51-57 of the source: projection, discounting, terminal value and
    intrinsic value, once a positive [fcf] is known. *)
Definition project (fcf : Q) (years : Z) (discount_rate growth_rate : Q)
  : result Projection :=
  let future := future_fcfs_of fcf years growth_rate in
  disc <- discounted_fcfs_of future discount_rate ;;
  last_fcf <- last_item future ;;
  tv <- div (last_fcf * (1 + growth_rate)) (discount_rate - growth_rate) ;;
  dtv <- div tv (pow (1 + discount_rate) years) ;;
  Ok (mkProjection future disc tv dtv (sum disc + dtv)).

(** Lines 59-64 of the source: market capitalisation, upside and the
    returned tuple. *)
Definition dcf_body (company : Ticker) (fcf : Q) (years : Z) (discount_rate growth_rate : Q)
  : result Valuation :=
  p <- project fcf years discount_rate growth_rate ;;
  inf <- info company ;;
  let mc := dict_get inf "marketCap" 0 in
  up <- upside_of (intrinsic p) mc ;;
  Ok (mkValuation (intrinsic p) mc up (discounted p) (discounted_tv p)).

Definition default_years : Z := 5.
Definition default_discount_rate : Q := 10 # 100.
Definition default_growth_rate : Q := 5 # 100.

(** A field of a JSON object: the key is missing, its value is [null]
    (Python's [None]), or its value is a string. *)
Inductive Field : Type :=
| Missing
| Null
| Text (s : string).

(** A news article of the NewsAPI response. *)
Record Article : Type := mkArticle {
  title : Field;
  description : Field
}.

Record Response : Type := mkResponse {
  status_code : Z;
  json_articles : result (option (list Article))
}.

(** What [evaluate_security] reports: the early exit, or the printed figures
    and the plotted series. *)
Inductive Outcome : Type :=
| DCFFailed
| Report (intrinsic market upside_pct sentiment adjusted_upside : Q)
         (plot_points : list (Z * Q)) (market_cap_line : Q).

Section Program.

(** [yf.Ticker] *)
Variable yf_Ticker : string -> Ticker.
(** The module-level [NEWS_API_KEY]; the source ships it empty. *)
Variable NEWS_API_KEY : string.
(** [requests.get], by URL. *)
Variable requests_get : string -> result Response.
(** [TextBlob(text).sentiment.polarity] *)
Variable polarity : string -> Q.

Definition calculate_fcf (ticker : string) : option Q :=
  try_or_None (fcf_body (yf_Ticker ticker)).

Definition discounted_cash_flow_analysis
  (ticker : string) (years : Z) (discount_rate growth_rate : Q)
  : result (option Valuation) :=
  match calculate_fcf ticker with
  | None => Ok None
  | Some fcf =>
      if Qle_bool fcf 0 then Ok None
      else
        v <- dcf_body (yf_Ticker ticker) fcf years discount_rate growth_rate ;;
        Ok (Some v)
  end.

(** [article["title"] + ". " + article.get("description", "")], evaluated
    from the left: a missing title raises KeyError; a [null] title makes
    [None + ". "] raise TypeError; a [null] description is returned as it is
    by [get], whose default only replaces a missing key, and adding it to a
    string raises TypeError. *)
Definition article_text (a : Article) : result string :=
  match title a with
  | Missing => Raise KeyError
  | Null => Raise TypeError
  | Text t =>
      match description a with
      | Missing => Ok (t ++ ". " ++ "")%string
      | Null => Raise TypeError
      | Text d => Ok (t ++ ". " ++ d)%string
      end
  end.

Definition news_url (ticker : string) : string :=
  ("https://newsapi.org/v2/everything?q=" ++ ticker ++ "&apiKey=" ++ NEWS_API_KEY)%string.

Definition get_security_news (ticker : string) : list string :=
  if String.eqb NEWS_API_KEY "" then []
  else
    match requests_get (news_url ticker) with
    | Raise _ => []
    | Ok response =>
        if negb (Z.eqb (status_code response) 200) then []
        else
          match
            (data <- json_articles response ;;
             let articles := match data with Some l => l | None => [] end in
             comprehension article_text (firstn 5 articles))
          with
          | Ok texts => texts
          | Raise _ => []
          end
    end.

(** The mean is taken in exact arithmetic; in double precision the sum
    and the quotient are rounded. *)
Definition analyze_sentiment (news_list : list string) : result Q :=
  match news_list with
  | [] => Ok 0
  | _ =>
      let sentiments := map polarity news_list in
      div (sum sentiments) (inject_Z (len sentiments))
  end.

Definition evaluate_security (ticker : string) : result Outcome :=
  dcf_result <- discounted_cash_flow_analysis ticker default_years
                  default_discount_rate default_growth_rate ;;
  match dcf_result with
  | None => Ok DCFFailed
  | Some v =>
      let news := get_security_news ticker in
      sentiment_score <- analyze_sentiment news ;;
      let adjusted_upside := upside v + sentiment_score * 50 in
      Ok (Report (intrinsic_value v) (market_cap v) (upside v)
                 sentiment_score adjusted_upside
                 (combine (range 1 (len (discounted_fcfs v) + 1)) (discounted_fcfs v))
                 (market_cap v))
  end.

End Program.

(** ** The valuation as the specification words it *)

Module Spec.

(** Sum of [f 1 .. f n]. *)
Fixpoint sigma (n : nat) (f : nat -> Q) : Q :=
  match n with
  | O => 0
  | S m => sigma m f + f (S m)
  end.

Definition futureFCF (FCF g : Q) (i : Z) : Q := FCF * (1 + g) ^ i.

Definition discountedFCF (FCF g r : Q) (i : Z) : Q := futureFCF FCF g i / (1 + r) ^ i.

Definition TV (FCF g r : Q) (years : Z) : Q := futureFCF FCF g years * (1 + g) / (r - g).

Definition discountedTV (FCF g r : Q) (years : Z) : Q := TV FCF g r years / (1 + r) ^ years.

Definition intrinsicValue (FCF g r : Q) (years : Z) : Q :=
  sigma (Z.to_nat years) (fun i => discountedFCF FCF g r (Z.of_nat i))
  + discountedTV FCF g r years.

Definition upsidePercent (intrinsicValue marketCap : Q) : Q :=
  (intrinsicValue - marketCap) / marketCap * 100.

(** Arithmetic mean of a non-empty sequence of scores. *)
Definition mean (scores : list Q) : Q :=
  fold_right Qplus 0 scores / inject_Z (Z.of_nat (List.length scores)).

End Spec.

(** The valuation that is returned when nothing raises. *)
Definition valuation_of (fcf : Q) (years : Z) (r g : Q) (inf : list (string * Q))
  : Valuation :=
  let iv := Spec.intrinsicValue fcf g r years in
  let mc := dict_get inf "marketCap" 0 in
  mkValuation iv mc
    (if Qltb 0 mc then Spec.upsidePercent iv mc else 0)
    (map (Spec.discountedFCF fcf g r) (range 1 (years + 1)))
    (Spec.discountedTV fcf g r years).

(** ** Sample market data *)

Module Demo.

Open Scope string_scope.

(** Cells of a statement from literal rows; a cell that is not listed is 0. *)
Definition table (rows : list (string * list (string * Q))) (row col : string) : Q :=
  dict_get (dict_get rows row []) col 0.

Definition income : DataFrame :=
  mkDataFrame ["Total Revenue"; "Operating Income"] ["2023"; "2022"]
    (table [("Total Revenue", [("2023", 9000000); ("2022", 8500000)]);
            ("Operating Income", [("2023", 1200000); ("2022", 1100000)])]).

Definition cash : DataFrame :=
  mkDataFrame ["Depreciation"; "Capital Expenditures"; "Change in Working Capital"]
    ["2023"; "2022"]
    (table [("Depreciation", [("2023", 100000); ("2022", 90000)]);
            ("Capital Expenditures", [("2023", 250000); ("2022", 240000)]);
            ("Change in Working Capital", [("2023", 50000); ("2022", 30000)])]).

(** An income statement with an operating loss. *)
Definition income_loss : DataFrame :=
  mkDataFrame ["Operating Income"] ["2023"]
    (table [("Operating Income", [("2023", -500000)])]).

(** An income statement without any of the EBIT labels. *)
Definition income_bare : DataFrame :=
  mkDataFrame ["Total Revenue"] ["2023"]
    (table [("Total Revenue", [("2023", 9000000)])]).

(** A cash-flow statement that only has the second depreciation label. *)
Definition cash_bare : DataFrame :=
  mkDataFrame ["Depreciation & Amortization"] ["2023"]
    (table [("Depreciation & Amortization", [("2023", 100000)])]).

Definition yf (ticker : string) : Ticker :=
  if ticker =? "ACME" then
    mkTicker (Ok income) (Ok cash) (Ok [("marketCap", 20000000)])
  else if ticker =? "LOSS" then
    mkTicker (Ok income_loss) (Ok cash) (Ok [("marketCap", 3000000)])
  else if ticker =? "BARE" then
    mkTicker (Ok income_bare) (Ok cash_bare) (Ok [])
  else
    mkTicker (Raise ConnectionError) (Raise ConnectionError) (Raise ConnectionError).

Definition no_requests (url : string) : result Response := Raise ConnectionError.

Definition headlines : list string := ["Acme beats estimates. Strong quarter"; "Acme recalls product. "].

Definition tone (text : string) : Q :=
  if text =? "Acme beats estimates. Strong quarter" then 6 # 10
  else if text =? "Acme recalls product. " then - (2 # 10)
  else 0.

End Demo.

(** ** News texts and further sample data *)

(** The string of a field, empty when the field holds none. *)
Definition text_of (f : Field) : string :=
  match f with
  | Text s => s
  | Missing | Null => ""%string
  end.

(** The text scored for an article whose title is a string and whose
    description is a string or missing: title, a full stop and the
    description, which is empty when the article has none. *)
Definition headline (a : Article) : string :=
  (text_of (title a) ++ ". " ++ text_of (description a))%string.

(** An article can be scored when its title is a string and its
    description is a string or missing. *)
Definition scorable (a : Article) : Prop :=
  (exists t, title a = Text t) /\ description a <> Null.

(** [articles] of the JSON body, [[]] when the key is missing. *)
Definition articles_of (data : option (list Article)) : list Article :=
  match data with Some l => l | None => [] end.

Module Demo2.

Open Scope string_scope.

Definition articles : list Article :=
  [mkArticle (Text "Acme beats estimates") (Text "Strong quarter");
   mkArticle (Text "Acme recalls product") Missing;
   mkArticle (Text "Acme opens plant") (Text "Capacity doubles");
   mkArticle (Text "Acme names CFO") (Text "Effective in May");
   mkArticle (Text "Acme pays dividend") Missing;
   mkArticle Missing (Text "Sixth article, never read")].

(** The second article has no title. *)
Definition articles_untitled : list Article :=
  [mkArticle (Text "Acme beats estimates") (Text "Strong quarter");
   mkArticle Missing (Text "Untitled")].

(** The second article has a description that is [null]. *)
Definition articles_null : list Article :=
  [mkArticle (Text "Acme beats estimates") (Text "Strong quarter");
   mkArticle (Text "Acme recalls product") Null].

Definition news_ok (url : string) : result Response :=
  Ok (mkResponse 200 (Ok (Some articles))).

Definition news_untitled (url : string) : result Response :=
  Ok (mkResponse 200 (Ok (Some articles_untitled))).

Definition news_null (url : string) : result Response :=
  Ok (mkResponse 200 (Ok (Some articles_null))).

(** A cash-flow statement that only has the period 2022. *)
Definition cash_old : DataFrame :=
  mkDataFrame ["Depreciation"] ["2022"]
    (Demo.table [("Depreciation", [("2022", 90000)])]).

(** A cash-flow statement without any of the labels and without 2023. *)
Definition cash_other : DataFrame :=
  mkDataFrame ["Net Income"] ["2022"]
    (Demo.table [("Net Income", [("2022", 700000)])]).

(** The income statement of [Demo.income] with other figures for 2022. *)
Definition income_restated : DataFrame :=
  mkDataFrame ["Total Revenue"; "Operating Income"] ["2023"; "2021"]
    (Demo.table [("Total Revenue", [("2023", 9000000); ("2021", 1)]);
                 ("Operating Income", [("2023", 1200000); ("2021", 2)])]).

Definition yf (ticker : string) : Ticker :=
  if ticker =? "DARK" then
    mkTicker (Ok Demo.income) (Ok Demo.cash) (Raise ConnectionError)
  else if ticker =? "LATE" then
    mkTicker (Ok Demo.income) (Ok cash_old) (Ok [("marketCap", 20000000)])
  else if ticker =? "SLIM" then
    mkTicker (Ok Demo.income) (Ok cash_other) (Ok [("marketCap", 20000000)])
  else if ticker =? "REST" then
    mkTicker (Ok income_restated) (Ok Demo.cash) (Ok [("marketCap", 20000000)])
  else Demo.yf ticker.

End Demo2.

(** ** The valuation on NumPy float64 values *)

(** The cells of a pandas statement are NumPy float64 values, and so is the
    FCF computed from them.  On these, [/] does not raise for a zero
    divisor: it yields an infinity or NaN (with a RuntimeWarning, which is
    not an exception), and the special values propagate by IEEE's rules.
    This module embeds lines 51-64 for that kind of number: finite values
    stay exact rationals, and the special values are added.  Zeros carry no
    sign: the zero divisors of the program, [discount_rate - growth_rate]
    and [(1 + discount_rate) ** i], are +0.0. *)

Module Np.

Inductive float64 : Type :=
| Fin (q : Q)
| PInf
| NInf
| NaN.

Definition neg (x : float64) : float64 :=
  match x with
  | Fin q => Fin (- q)
  | PInf => NInf
  | NInf => PInf
  | NaN => NaN
  end.

(** The infinity with the sign of [x] for [x <> 0]; NaN for [x = 0]. *)
Definition inf_of_sign (x : Q) : float64 :=
  if Qeq_bool x 0 then NaN else if Qltb 0 x then PInf else NInf.

Definition add (x y : float64) : float64 :=
  match x, y with
  | NaN, _ | _, NaN => NaN
  | Fin a, Fin b => Fin (a + b)
  | PInf, NInf | NInf, PInf => NaN
  | PInf, _ | _, PInf => PInf
  | NInf, _ | _, NInf => NInf
  end.

Definition sub (x y : float64) : float64 := add x (neg y).

Definition mul (x y : float64) : float64 :=
  match x, y with
  | NaN, _ | _, NaN => NaN
  | Fin a, Fin b => Fin (a * b)
  | Fin a, PInf | PInf, Fin a => inf_of_sign a
  | Fin a, NInf | NInf, Fin a => neg (inf_of_sign a)
  | PInf, PInf | NInf, NInf => PInf
  | PInf, NInf | NInf, PInf => NInf
  end.

Definition div (x y : float64) : float64 :=
  match x, y with
  | NaN, _ | _, NaN => NaN
  | Fin a, Fin b => if Qeq_bool b 0 then inf_of_sign a else Fin (a / b)
  | Fin _, PInf | Fin _, NInf => Fin 0
  | PInf, Fin b => if Qltb b 0 then NInf else PInf
  | NInf, Fin b => if Qltb b 0 then PInf else NInf
  | PInf, PInf | PInf, NInf | NInf, PInf | NInf, NInf => NaN
  end.

(** [sum(xs)]: starts from the integer [0] and adds from the left. *)
Definition sum (xs : list float64) : float64 := fold_left add xs (Fin 0).


Definition finite (x : float64) : Prop := exists q, x = Fin q.

(** The returned tuple; the market capitalisation is a Python number. *)
Record Valuation : Type := mkValuation {
  intrinsic_value : float64;
  market_cap : Q;
  upside : float64;
  discounted_fcfs : list float64;
  discounted_terminal_value : float64
}.

Record Projection : Type := mkProjection {
  future_fcfs : list float64;
  discounted : list float64;
  terminal_value : float64;
  discounted_tv : float64;
  intrinsic : float64
}.

(** Line 51; the rates are Python floats and their powers stay finite. *)
Definition future_fcfs_of (fcf : Q) (years : Z) (growth_rate : Q) : list float64 :=
  map (fun i => mul (Fin fcf) (Fin (pow (1 + growth_rate) i))) (range 1 (years + 1)).

(** Line 52 *)
Definition discounted_fcfs_of (future : list float64) (discount_rate : Q)
  : list float64 :=
  map (fun p : Z * float64 => let (i, f) := p in div f (Fin (pow (1 + discount_rate) i)))
      (enumerate future 1).

(** Lines 51-57 *)
Definition project (fcf : Q) (years : Z) (discount_rate growth_rate : Q)
  : result Projection :=
  let future := future_fcfs_of fcf years growth_rate in
  let disc := discounted_fcfs_of future discount_rate in
  last_fcf <- last_item future ;;
  let tv := div (mul last_fcf (Fin (1 + growth_rate)))
                (Fin (discount_rate - growth_rate)) in
  let dtv := div tv (Fin (pow (1 + discount_rate) years)) in
  Ok (mkProjection future disc tv dtv (add (sum disc) dtv)).

(** Line 62 *)
Definition upside_of (intrinsic_value : float64) (market_cap : Q) : float64 :=
  if Qltb 0 market_cap then
    mul (div (sub intrinsic_value (Fin market_cap)) (Fin market_cap)) (Fin 100)
  else Fin 0.

(** Lines 59-64 *)
Definition dcf_body (company : Ticker) (fcf : Q) (years : Z) (discount_rate growth_rate : Q)
  : result Valuation :=
  p <- project fcf years discount_rate growth_rate ;;
  inf <- info company ;;
  let mc := dict_get inf "marketCap" 0 in
  Ok (mkValuation (intrinsic p) mc (upside_of (intrinsic p) mc)
        (discounted p) (discounted_tv p)).

(** Lines 46-64, with [calculate_fcf] giving a finite FCF. *)
Definition discounted_cash_flow_analysis
  (yf_Ticker : string -> Ticker) (ticker : string)
  (years : Z) (discount_rate growth_rate : Q) : result (option Valuation) :=
  match calculate_fcf yf_Ticker ticker with
  | None => Ok None
  | Some fcf =>
      if Qle_bool fcf 0 then Ok None
      else
        v <- dcf_body (yf_Ticker ticker) fcf years discount_rate growth_rate ;;
        Ok (Some v)
  end.

End Np.

(** ** The projection in double precision *)

(** Lines 51-57 on IEEE binary64 values, with the rounding, underflow and
    overflow of the program.  The FCF is a Python float or a NumPy float64;
    the rates are Python floats.  [x ** i] is computed here by repeated
    multiplication; Python calls the C library's [pow], which gives the
    same value whenever the power, or its underflow to zero, is exact, as
    for the powers of 0.5 and of 1.0. *)

Module F.

Local Open Scope float_scope.

Inductive kind : Type :=
| PythonFloat
| NumPyFloat64.

Fixpoint pow_nat (x : float) (n : nat) : float :=
  match n with
  | O => 1
  | S m => x * pow_nat x m
  end.

(** [x ** i] for [i >= 1]: OverflowError when the result overflows; an
    underflow gives 0.0 without an error. *)
Definition pow (x : float) (i : Z) : result float :=
  let p := pow_nat x (Z.to_nat i) in
  if is_infinity p && is_finite x then Raise OverflowError else Ok p.

(** [x / y]: a zero divisor raises for a Python float and gives an
    infinity or NaN for a NumPy float64. *)
Definition div (k : kind) (x y : float) : result float :=
  if is_zero y then
    match k with
    | PythonFloat => Raise ZeroDivisionError
    | NumPyFloat64 => Ok (x / y)
    end
  else Ok (x / y).

Definition sum (xs : list float) : float := fold_left add xs 0.

Record Projection : Type := mkProjection {
  future_fcfs : list float;
  discounted : list float;
  terminal_value : float;
  discounted_tv : float;
  intrinsic : float
}.

Definition future_fcfs_of (fcf : float) (years : Z) (growth_rate : float)
  : result (list float) :=
  comprehension (fun i => p <- pow (1 + growth_rate) i ;; Ok (fcf * p))
                (range 1%Z (years + 1)%Z).

Definition discounted_fcfs_of (k : kind) (future : list float) (discount_rate : float)
  : result (list float) :=
  comprehension (fun q : Z * float =>
                   let (i, f) := q in
                   p <- pow (1 + discount_rate) i ;; div k f p)
                (enumerate future 1%Z).

Definition project (k : kind) (fcf : float) (years : Z) (discount_rate growth_rate : float)
  : result Projection :=
  future <- future_fcfs_of fcf years growth_rate ;;
  disc <- discounted_fcfs_of k future discount_rate ;;
  last_fcf <- last_item future ;;
  tv <- div k (last_fcf * (1 + growth_rate)) (discount_rate - growth_rate) ;;
  p <- pow (1 + discount_rate) years ;;
  dtv <- div k tv p ;;
  Ok (mkProjection future disc tv dtv (sum disc + dtv)).

End F.

(** ** Python runtime: basic facts *)

Lemma bind_Ok {A B : Type} (a : A) (k : A -> result B) : bind (Ok a) k = k a.
Proof. reflexivity. Qed.

Lemma div_Ok (x y : Q) : ~ y == 0 -> div x y = Ok (x / y).
Proof.
  intros Hy. unfold div.
  destruct (Qeq_bool y 0) eqn:E; [|reflexivity].
  apply Qeq_bool_eq in E. contradiction.
Qed.


Lemma Qltb_true (x y : Q) : Qltb x y = true <-> x < y.
Proof.
  unfold Qltb. rewrite negb_true_iff.
  split; intros H.
  - apply Qnot_le_lt. intros Hle. apply Qle_bool_iff in Hle. congruence.
  - destruct (Qle_bool y x) eqn:E; [|reflexivity].
    apply Qle_bool_iff in E. exfalso. exact (Qlt_not_le _ _ H E).
Qed.

Lemma Qltb_false (x y : Q) : Qltb x y = false <-> ~ x < y.
Proof.
  rewrite <- Qltb_true. destruct (Qltb x y); split; congruence.
Qed.

Lemma range_from_1 (n : nat) : range 1 (Z.of_nat n + 1) = map Z.of_nat (seq 1 n).
Proof.
  unfold range.
  replace (Z.of_nat n + 1 - 1)%Z with (Z.of_nat n) by lia.
  rewrite Nat2Z.id, <- seq_shift, map_map.
  apply map_ext. intros k. lia.
Qed.

Lemma range_empty (a b : Z) : (b <= a)%Z -> range a b = [].
Proof.
  intros H. unfold range.
  replace (Z.to_nat (b - a)) with O by lia. reflexivity.
Qed.

Lemma enumerate_map_seq {A : Type} (F : Z -> A) (n s : nat) :
  enumerate (map (fun k => F (Z.of_nat k)) (seq s n)) (Z.of_nat s)
  = map (fun k => (Z.of_nat k, F (Z.of_nat k))) (seq s n).
Proof.
  revert s. induction n as [|n IH]; intros s; simpl; [reflexivity|].
  f_equal.
  replace (Z.of_nat s + 1)%Z with (Z.of_nat (S s)) by lia.
  apply IH.
Qed.

Lemma comprehension_Ok {A B : Type} (f : A -> result B) (g : A -> B) (xs : list A) :
  (forall x, In x xs -> f x = Ok (g x)) ->
  comprehension f xs = Ok (map g xs).
Proof.
  induction xs as [|x xs IH]; intros H; simpl; [reflexivity|].
  rewrite (H x (or_introl eq_refl)). simpl.
  rewrite IH; [reflexivity|].
  intros y Hy. apply H. now right.
Qed.

Lemma last_item_snoc {A : Type} (xs : list A) (x : A) : last_item (xs ++ [x]) = Ok x.
Proof.
  induction xs as [|y xs IH]; simpl; [reflexivity|].
  destruct (xs ++ [x]) eqn:E; [|exact IH].
  destruct xs; discriminate.
Qed.

Lemma sum_map_seq (d : nat -> Q) (n : nat) :
  sum (map d (seq 1 n)) = Spec.sigma n d.
Proof.
  unfold sum. induction n as [|n IH]; [reflexivity|].
  rewrite seq_S, map_app, fold_left_app, IH. reflexivity.
Qed.

(** ** The projection of lines 51-57 *)

Lemma future_fcfs_of_seq (fcf g : Q) (n : nat) :
  future_fcfs_of fcf (Z.of_nat n) g
  = map (fun k => Spec.futureFCF fcf g (Z.of_nat k)) (seq 1 n).
Proof.
  unfold future_fcfs_of. rewrite range_from_1, map_map. reflexivity.
Qed.

Lemma discounted_fcfs_of_seq (fcf g r : Q) (n : nat) :
  ~ 1 + r == 0 ->
  discounted_fcfs_of (future_fcfs_of fcf (Z.of_nat n) g) r
  = Ok (map (fun k => Spec.discountedFCF fcf g r (Z.of_nat k)) (seq 1 n)).
Proof.
  intros Hr. unfold discounted_fcfs_of.
  rewrite future_fcfs_of_seq.
  change 1%Z with (Z.of_nat 1).
  rewrite (enumerate_map_seq (Spec.futureFCF fcf g)).
  rewrite (comprehension_Ok _ (fun p : Z * Q => snd p / (1 + r) ^ fst p)).
  - rewrite map_map. reflexivity.
  - intros [i f] _. simpl. apply div_Ok. now apply Qpower_not_0.
Qed.

Lemma last_future_fcf (fcf g : Q) (n : nat) :
  last_item (future_fcfs_of fcf (Z.of_nat (S n)) g)
  = Ok (Spec.futureFCF fcf g (Z.of_nat (S n))).
Proof.
  rewrite future_fcfs_of_seq, seq_S, map_app. simpl.
  apply last_item_snoc.
Qed.

Lemma Qminus_neq_0 (r g : Q) : ~ r == g -> ~ r - g == 0.
Proof. intros H E. apply H. lra. Qed.

Lemma project_Ok (fcf : Q) (years : Z) (r g : Q) :
  (1 <= years)%Z -> ~ r == -1 -> ~ r == g ->
  project fcf years r g
  = Ok (mkProjection
          (map (Spec.futureFCF fcf g) (range 1 (years + 1)))
          (map (Spec.discountedFCF fcf g r) (range 1 (years + 1)))
          (Spec.TV fcf g r years)
          (Spec.discountedTV fcf g r years)
          (Spec.intrinsicValue fcf g r years)).
Proof.
  intros Hy Hr Hg.
  assert (Hr' : ~ 1 + r == 0) by (intros E; apply Hr; lra).
  destruct (Z.to_nat years) as [|n] eqn:En; [lia|].
  assert (Ey : years = Z.of_nat (S n)) by lia.
  unfold project, Spec.intrinsicValue. rewrite En. subst years.
  rewrite discounted_fcfs_of_seq by exact Hr'.
  rewrite bind_Ok, last_future_fcf, bind_Ok.
  rewrite div_Ok by now apply Qminus_neq_0.
  rewrite bind_Ok.
  unfold pow. rewrite div_Ok by now apply Qpower_not_0.
  rewrite bind_Ok.
  rewrite sum_map_seq, future_fcfs_of_seq.
  rewrite range_from_1, !map_map.
  reflexivity.
Qed.

(** ** Closed form of the intrinsic value *)

Lemma Qpower_succ (x : Q) (n : nat) : x ^ Z.of_nat (S n) == x ^ Z.of_nat n * x.
Proof.
  rewrite Nat2Z.inj_succ. unfold Z.succ.
  rewrite Qpower_plus' by lia.
  now rewrite Qpower_1_r.
Qed.

(** The discounted cash flows and the discounted terminal value telescope:
    the intrinsic value is the value of the growing perpetuity, whatever
    the horizon. *)
Lemma intrinsic_closed_nat (fcf g r : Q) (n : nat) :
  ~ r == -1 -> ~ r == g ->
  Spec.sigma n (fun i => Spec.discountedFCF fcf g r (Z.of_nat i))
  + Spec.discountedTV fcf g r (Z.of_nat n)
  == fcf * (1 + g) / (r - g).
Proof.
  intros Hr Hg.
  assert (Hb : ~ 1 + r == 0) by (intros E; apply Hr; lra).
  assert (Hd : ~ r - g == 0) by now apply Qminus_neq_0.
  induction n as [|n IH].
  - unfold Spec.discountedTV, Spec.TV, Spec.futureFCF. simpl.
    field. exact Hd.
  - cbn [Spec.sigma]. rewrite <- IH.
    unfold Spec.discountedTV, Spec.TV, Spec.discountedFCF, Spec.futureFCF.
    rewrite !Qpower_succ.
    assert (HB : ~ (1 + r) ^ Z.of_nat n == 0) by now apply Qpower_not_0.
    set (A := (1 + g) ^ Z.of_nat n) in *.
    set (B := (1 + r) ^ Z.of_nat n) in *.
    set (S0 := Spec.sigma n _).
    field. repeat split; assumption.
Qed.

Lemma intrinsic_closed (fcf g r : Q) (years : Z) :
  (0 <= years)%Z -> ~ r == -1 -> ~ r == g ->
  Spec.intrinsicValue fcf g r years == fcf * (1 + g) / (r - g).
Proof.
  intros Hy Hr Hg. unfold Spec.intrinsicValue.
  rewrite <- (intrinsic_closed_nat fcf g r (Z.to_nat years) Hr Hg).
  now rewrite Z2Nat.id.
Qed.

(** ** The valuation as a whole *)

Lemma upside_of_Ok (iv mc : Q) :
  upside_of iv mc = Ok (if Qltb 0 mc then Spec.upsidePercent iv mc else 0).
Proof.
  unfold upside_of. destruct (Qltb 0 mc) eqn:E; [|reflexivity].
  apply Qltb_true in E.
  rewrite div_Ok; [reflexivity|].
  intros H. rewrite H in E. exact (Qlt_irrefl 0 E).
Qed.

Lemma Qle_bool_false (x y : Q) : Qle_bool x y = false <-> y < x.
Proof.
  rewrite <- Qltb_true. unfold Qltb. now rewrite negb_true_iff.
Qed.

Section Valuation_facts.

Variable yf_Ticker : string -> Ticker.
Variable ticker : string.

Lemma dcfa_unavailable (years : Z) (r g : Q) :
  calculate_fcf yf_Ticker ticker = None ->
  discounted_cash_flow_analysis yf_Ticker ticker years r g = Ok None.
Proof.
  intros H. unfold discounted_cash_flow_analysis. now rewrite H.
Qed.

Lemma dcfa_nonpositive (fcf : Q) (years : Z) (r g : Q) :
  calculate_fcf yf_Ticker ticker = Some fcf -> fcf <= 0 ->
  discounted_cash_flow_analysis yf_Ticker ticker years r g = Ok None.
Proof.
  intros H Hle. unfold discounted_cash_flow_analysis. rewrite H.
  apply Qle_bool_iff in Hle. now rewrite Hle.
Qed.

Lemma dcfa_positive (fcf : Q) (years : Z) (r g : Q) :
  calculate_fcf yf_Ticker ticker = Some fcf -> 0 < fcf ->
  discounted_cash_flow_analysis yf_Ticker ticker years r g
  = (v <- dcf_body (yf_Ticker ticker) fcf years r g ;; Ok (Some v)).
Proof.
  intros H Hpos. unfold discounted_cash_flow_analysis. rewrite H.
  apply Qle_bool_false in Hpos. now rewrite Hpos.
Qed.

Lemma dcfa_Ok (fcf : Q) (years : Z) (r g : Q) (inf : list (string * Q)) :
  calculate_fcf yf_Ticker ticker = Some fcf -> 0 < fcf ->
  (1 <= years)%Z -> ~ r == -1 -> ~ r == g ->
  info (yf_Ticker ticker) = Ok inf ->
  discounted_cash_flow_analysis yf_Ticker ticker years r g
  = Ok (Some (valuation_of fcf years r g inf)).
Proof.
  intros H Hpos Hy Hr Hg Hinf.
  rewrite (dcfa_positive fcf) by assumption.
  unfold dcf_body. rewrite project_Ok by assumption.
  rewrite bind_Ok, Hinf, bind_Ok. cbn [intrinsic discounted discounted_tv].
  rewrite upside_of_Ok. reflexivity.
Qed.

(** What a returned valuation was computed from. *)
Lemma dcfa_inv (years : Z) (r g : Q) (v : Valuation) :
  discounted_cash_flow_analysis yf_Ticker ticker years r g = Ok (Some v) ->
  exists fcf p inf,
    calculate_fcf yf_Ticker ticker = Some fcf /\ 0 < fcf /\
    project fcf years r g = Ok p /\
    info (yf_Ticker ticker) = Ok inf /\
    v = mkValuation (intrinsic p) (dict_get inf "marketCap" 0)
          (if Qltb 0 (dict_get inf "marketCap" 0)
           then Spec.upsidePercent (intrinsic p) (dict_get inf "marketCap" 0) else 0)
          (discounted p) (discounted_tv p).
Proof.
  unfold discounted_cash_flow_analysis.
  destruct (calculate_fcf yf_Ticker ticker) as [fcf|] eqn:Ef; [|discriminate].
  destruct (Qle_bool fcf 0) eqn:El; [discriminate|].
  apply Qle_bool_false in El.
  unfold dcf_body.
  destruct (project fcf years r g) as [p|e] eqn:Ep; [|discriminate].
  rewrite bind_Ok.
  destruct (info (yf_Ticker ticker)) as [inf|e] eqn:Ei; [|discriminate].
  rewrite bind_Ok, upside_of_Ok, !bind_Ok.
  intros E. injection E as <-.
  exists fcf, p, inf. repeat split; assumption || reflexivity.
Qed.

End Valuation_facts.

Lemma sum_discounted (fcf g r : Q) (years : Z) :
  (0 <= years)%Z ->
  sum (map (Spec.discountedFCF fcf g r) (range 1 (years + 1)))
  = Spec.sigma (Z.to_nat years) (fun i => Spec.discountedFCF fcf g r (Z.of_nat i)).
Proof.
  intros Hy. rewrite <- (Z2Nat.id years) at 1 by exact Hy.
  rewrite range_from_1, map_map. apply sum_map_seq.
Qed.


Lemma project_no_years (fcf : Q) (years : Z) (r g : Q) :
  (years <= 0)%Z -> project fcf years r g = Raise IndexError.
Proof.
  intros Hy. unfold project, future_fcfs_of.
  rewrite range_empty by lia. reflexivity.
Qed.

(** ** Properties of the valuation *)

(** C1 (as amended).  For a strictly positive FCF, a horizon [years >= 1]
    and rates with [r <> g] and [r <> -1] (and market data that can be
    fetched), the valuation computes futureFCF[i] = FCF * (1+g)^i for
    i = 1..years, discountedFCF[i] = futureFCF[i] / (1+r)^i, the terminal
    value TV = futureFCF[years] * (1+g) / (r - g), discountedTV =
    TV / (1+r)^years, and returns intrinsicValue = sum(discountedFCF) +
    discountedTV.  For FCF = 1,000,000, years = 5, r = 0.10, g = 0.05 the
    fifth projected cash flow is 1276281.5625 and the terminal value is
    26801912.8125. *)
Theorem C1_valuate_formulas
  (yf_Ticker : string -> Ticker) (ticker : string)
  (fcf : Q) (years : Z) (r g : Q) (inf : list (string * Q)) :
  calculate_fcf yf_Ticker ticker = Some fcf -> 0 < fcf ->
  (1 <= years)%Z -> ~ r == g -> ~ r == -1 ->
  info (yf_Ticker ticker) = Ok inf ->
  (exists p v,
      project fcf years r g = Ok p /\
      discounted_cash_flow_analysis yf_Ticker ticker years r g = Ok (Some v) /\
      future_fcfs p = map (fun i => fcf * (1 + g) ^ i) (range 1 (years + 1)) /\
      discounted p = map (fun i => fcf * (1 + g) ^ i / (1 + r) ^ i) (range 1 (years + 1)) /\
      terminal_value p = fcf * (1 + g) ^ years * (1 + g) / (r - g) /\
      discounted_tv p = terminal_value p / (1 + r) ^ years /\
      discounted_fcfs v = discounted p /\
      discounted_terminal_value v = discounted_tv p /\
      intrinsic_value v = sum (discounted_fcfs v) + discounted_terminal_value v)
  /\
  (exists p,
      project 1000000 5 (10 # 100) (5 # 100) = Ok p /\
      nth 4 (future_fcfs p) 0 == 12762815625 # 10000 /\
      terminal_value p == 268019128125 # 10000).
Proof.
  intros Hf Hpos Hy Hg Hr Hinf. split.
  - exists (mkProjection
              (map (Spec.futureFCF fcf g) (range 1 (years + 1)))
              (map (Spec.discountedFCF fcf g r) (range 1 (years + 1)))
              (Spec.TV fcf g r years)
              (Spec.discountedTV fcf g r years)
              (Spec.intrinsicValue fcf g r years)).
    exists (valuation_of fcf years r g inf).
    split; [now apply project_Ok|].
    split; [now apply dcfa_Ok|].
    cbn [future_fcfs discounted terminal_value discounted_tv valuation_of
         discounted_fcfs discounted_terminal_value intrinsic_value].
    repeat split.
    rewrite sum_discounted by lia. reflexivity.
  - eexists. split; [vm_compute; reflexivity|].
    split; vm_compute; reflexivity.
Qed.

Lemma C1_witness :
  exists v,
    discounted_cash_flow_analysis Demo.yf "ACME" 5 (10 # 100) (5 # 100) = Ok (Some v) /\
    intrinsic_value v = sum (discounted_fcfs v) + discounted_terminal_value v.
Proof.
  destruct (C1_valuate_formulas Demo.yf "ACME" 1000000 5 (10 # 100) (5 # 100)
              [("marketCap"%string, 20000000)])
    as [[p [v [_ [Hv [_ [_ [_ [_ [_ [_ Hiv]]]]]]]]]] _].
  - vm_compute. reflexivity.
  - reflexivity.
  - lia.
  - intros H. vm_compute in H. discriminate H.
  - intros H. vm_compute in H. discriminate H.
  - vm_compute. reflexivity.
  - exists v. split; [exact Hv | exact Hiv].
Defined.

(** With a horizon of zero years the last projected cash flow does not
    exist and the valuation raises; with a discount rate of -100% the
    discounting divides by zero.  Both inputs have FCF > 0 and r <> g. *)
Lemma C1_counterexample :
  calculate_fcf Demo.yf "ACME" = Some 1000000 /\ 0 < 1000000 /\
  ~ (10 # 100) == (5 # 100) /\ ~ -1 == (5 # 100) /\
  discounted_cash_flow_analysis Demo.yf "ACME" 0 (10 # 100) (5 # 100) = Raise IndexError /\
  discounted_cash_flow_analysis Demo.yf "ACME" 5 (-1) (5 # 100) = Raise ZeroDivisionError.
Proof.
  repeat split; try (vm_compute; reflexivity);
    intros H; vm_compute in H; discriminate H.
Qed.

(** *** Sign and monotonicity of the intrinsic value *)

Lemma Qdiv_lt_cross (a b c d : Q) :
  0 < b -> 0 < d -> a * d < c * b -> a / b < c / d.
Proof.
  intros Hb Hd H.
  apply Qlt_shift_div_r; [exact Hb|].
  assert (E : c / d * b == c * b / d) by (field; lra).
  rewrite E.
  apply Qlt_shift_div_l; assumption.
Qed.

Lemma perpetuity_positive (fcf g r : Q) :
  0 < fcf -> -1 < g -> g < r -> 0 < fcf * (1 + g) / (r - g).
Proof.
  intros Hf Hg Hr.
  apply Qlt_shift_div_l; [lra|].
  assert (H : 0 < fcf * (1 + g)) by (apply Qmult_lt_0_compat; lra).
  lra.
Qed.

Lemma perpetuity_increasing_growth (fcf g1 g2 r : Q) :
  0 < fcf -> -1 < g1 -> g1 < g2 -> g2 < r ->
  fcf * (1 + g1) / (r - g1) < fcf * (1 + g2) / (r - g2).
Proof.
  intros Hf H1 H12 H2.
  apply Qdiv_lt_cross; [lra | lra |].
  assert (H : 0 < fcf * (g2 - g1) * (1 + r)).
  { apply Qmult_lt_0_compat; [apply Qmult_lt_0_compat|]; lra. }
  lra.
Qed.

Lemma perpetuity_decreasing_discount (fcf g r1 r2 : Q) :
  0 < fcf -> -1 < g -> g < r1 -> r1 < r2 ->
  fcf * (1 + g) / (r2 - g) < fcf * (1 + g) / (r1 - g).
Proof.
  intros Hf Hg H1 H12.
  apply Qdiv_lt_cross; [lra | lra |].
  assert (H : 0 < fcf * (1 + g) * (r2 - r1)).
  { apply Qmult_lt_0_compat; [apply Qmult_lt_0_compat|]; lra. }
  lra.
Qed.

Lemma dcfa_perpetuity
  (yf_Ticker : string -> Ticker) (ticker : string)
  (fcf : Q) (years : Z) (r g : Q) (inf : list (string * Q)) :
  calculate_fcf yf_Ticker ticker = Some fcf -> 0 < fcf ->
  (1 <= years)%Z -> info (yf_Ticker ticker) = Ok inf ->
  -1 < g -> g < r ->
  exists v,
    discounted_cash_flow_analysis yf_Ticker ticker years r g = Ok (Some v) /\
    intrinsic_value v == fcf * (1 + g) / (r - g).
Proof.
  intros Hf Hpos Hy Hinf Hg Hr.
  exists (valuation_of fcf years r g inf). split.
  - apply dcfa_Ok; try assumption; intros E; lra.
  - cbn [valuation_of intrinsic_value].
    apply intrinsic_closed; [lia | |]; intros E; lra.
Qed.

(** C3 (as amended).  For FCF > 0, [years >= 1] and rates with
    -1 < growthRate < discountRate, the intrinsic value returned by the
    valuation is strictly positive, strictly increasing in growthRate with
    discountRate fixed, and strictly decreasing in discountRate with
    growthRate fixed (in exact arithmetic). *)
Theorem C3_intrinsic_positive_monotone
  (yf_Ticker : string -> Ticker) (ticker : string)
  (fcf : Q) (years : Z) (inf : list (string * Q)) :
  calculate_fcf yf_Ticker ticker = Some fcf -> 0 < fcf ->
  (1 <= years)%Z -> info (yf_Ticker ticker) = Ok inf ->
  (forall r g, -1 < g -> g < r ->
     exists v,
       discounted_cash_flow_analysis yf_Ticker ticker years r g = Ok (Some v) /\
       0 < intrinsic_value v) /\
  (forall r g1 g2, -1 < g1 -> g1 < g2 -> g2 < r ->
     exists v1 v2,
       discounted_cash_flow_analysis yf_Ticker ticker years r g1 = Ok (Some v1) /\
       discounted_cash_flow_analysis yf_Ticker ticker years r g2 = Ok (Some v2) /\
       intrinsic_value v1 < intrinsic_value v2) /\
  (forall g r1 r2, -1 < g -> g < r1 -> r1 < r2 ->
     exists v1 v2,
       discounted_cash_flow_analysis yf_Ticker ticker years r1 g = Ok (Some v1) /\
       discounted_cash_flow_analysis yf_Ticker ticker years r2 g = Ok (Some v2) /\
       intrinsic_value v2 < intrinsic_value v1).
Proof.
  intros Hf Hpos Hy Hinf.
  pose proof (dcfa_perpetuity yf_Ticker ticker fcf years) as P.
  split; [|split].
  - intros r g Hg Hr.
    destruct (P r g inf Hf Hpos Hy Hinf Hg Hr) as [v [Hv E]].
    exists v. split; [exact Hv|].
    rewrite E. now apply perpetuity_positive.
  - intros r g1 g2 H1 H12 H2.
    destruct (P r g1 inf Hf Hpos Hy Hinf H1) as [v1 [Hv1 E1]]; [lra|].
    destruct (P r g2 inf Hf Hpos Hy Hinf) as [v2 [Hv2 E2]]; [lra | lra |].
    exists v1, v2. repeat split; try assumption.
    rewrite E1, E2. now apply perpetuity_increasing_growth.
  - intros g r1 r2 Hg H1 H12.
    destruct (P r1 g inf Hf Hpos Hy Hinf Hg H1) as [v1 [Hv1 E1]].
    destruct (P r2 g inf Hf Hpos Hy Hinf Hg) as [v2 [Hv2 E2]]; [lra|].
    exists v1, v2. repeat split; try assumption.
    rewrite E1, E2. now apply perpetuity_decreasing_discount.
Qed.

Lemma C3_witness :
  (exists v,
     discounted_cash_flow_analysis Demo.yf "ACME" 5 (10 # 100) (5 # 100) = Ok (Some v) /\
     0 < intrinsic_value v) /\
  (exists v1 v2,
     discounted_cash_flow_analysis Demo.yf "ACME" 5 (10 # 100) (5 # 100) = Ok (Some v1) /\
     discounted_cash_flow_analysis Demo.yf "ACME" 5 (10 # 100) (6 # 100) = Ok (Some v2) /\
     intrinsic_value v1 < intrinsic_value v2) /\
  (exists v1 v2,
     discounted_cash_flow_analysis Demo.yf "ACME" 5 (10 # 100) (5 # 100) = Ok (Some v1) /\
     discounted_cash_flow_analysis Demo.yf "ACME" 5 (12 # 100) (5 # 100) = Ok (Some v2) /\
     intrinsic_value v2 < intrinsic_value v1).
Proof.
  destruct (C3_intrinsic_positive_monotone Demo.yf "ACME" 1000000 5
              [("marketCap"%string, 20000000)])
    as [Hp [Hg Hr]].
  - vm_compute. reflexivity.
  - reflexivity.
  - lia.
  - vm_compute. reflexivity.
  - split; [|split].
    + apply Hp; reflexivity.
    + apply Hg; reflexivity.
    + apply Hr; reflexivity.
Defined.

(** FCF = 1,000,000 and growthRate = -3 < discountRate = -2 over five
    years: the discounted cash flows add up to 62,000,000, the discounted
    terminal value is -64,000,000 and the intrinsic value is negative. *)
Lemma C3_counterexample :
  calculate_fcf Demo.yf "ACME" = Some 1000000 /\ 0 < 1000000 /\ -3 < -2 /\
  exists v,
    discounted_cash_flow_analysis Demo.yf "ACME" 5 (-2) (-3) = Ok (Some v) /\
    discounted_fcfs v = [2000000; 4000000; 8000000; 16000000; 32000000] /\
    discounted_terminal_value v = -64000000 /\
    intrinsic_value v = -2000000 /\
    ~ 0 < intrinsic_value v.
Proof.
  split; [vm_compute; reflexivity|].
  split; [reflexivity|]. split; [reflexivity|].
  eexists. split; [vm_compute; reflexivity|].
  cbn [discounted_fcfs discounted_terminal_value intrinsic_value].
  repeat split. intros H. discriminate H.
Qed.

(** *** Absent results *)

(** C4.  When the estimated FCF is unavailable or not strictly positive,
    the valuation returns None whatever the horizon and the rates are, also
    for those at which projecting and discounting would raise: no
    discounted cash flow is computed. *)
Theorem C4_nonpositive_fcf_absent
  (yf_Ticker : string -> Ticker) (ticker : string) :
  (calculate_fcf yf_Ticker ticker = None \/
   exists fcf, calculate_fcf yf_Ticker ticker = Some fcf /\ fcf <= 0) ->
  forall (years : Z) (r g : Q),
    discounted_cash_flow_analysis yf_Ticker ticker years r g = Ok None.
Proof.
  intros [H | [fcf [H Hle]]] years r g.
  - now apply dcfa_unavailable.
  - now apply (dcfa_nonpositive _ _ fcf).
Qed.

Lemma C4_witness :
  discounted_cash_flow_analysis Demo.yf "LOSS" 5 (10 # 100) (5 # 100) = Ok None /\
  discounted_cash_flow_analysis Demo.yf "LOSS" 0 (5 # 100) (5 # 100) = Ok None.
Proof.
  split; apply (C4_nonpositive_fcf_absent Demo.yf "LOSS");
    right; exists (-700000); (split; [vm_compute; reflexivity | discriminate]).
Defined.

(** C10.  The valuation returns the same None when the FCF data is
    unavailable and when the FCF is not strictly positive, and
    [evaluate_security] leaves through the same early exit in both cases. *)
Theorem C10_absent_indistinguishable
  (yf_Ticker : string -> Ticker) (NEWS_API_KEY : string)
  (requests_get : string -> result Response) (polarity : string -> Q)
  (t1 t2 : string) (fcf : Q) :
  calculate_fcf yf_Ticker t1 = None ->
  calculate_fcf yf_Ticker t2 = Some fcf -> fcf <= 0 ->
  (forall (years : Z) (r g : Q),
     discounted_cash_flow_analysis yf_Ticker t1 years r g = Ok None /\
     discounted_cash_flow_analysis yf_Ticker t2 years r g = Ok None) /\
  evaluate_security yf_Ticker NEWS_API_KEY requests_get polarity t1 = Ok DCFFailed /\
  evaluate_security yf_Ticker NEWS_API_KEY requests_get polarity t2 = Ok DCFFailed.
Proof.
  intros H1 H2 Hle.
  split; [|split].
  - intros years r g. split.
    + now apply dcfa_unavailable.
    + now apply (dcfa_nonpositive _ _ fcf).
  - unfold evaluate_security. now rewrite dcfa_unavailable.
  - unfold evaluate_security. now rewrite (dcfa_nonpositive _ _ fcf).
Qed.

Lemma C10_witness :
  evaluate_security Demo.yf "" Demo.no_requests Demo.tone "GONE" = Ok DCFFailed /\
  evaluate_security Demo.yf "" Demo.no_requests Demo.tone "LOSS" = Ok DCFFailed.
Proof.
  apply (C10_absent_indistinguishable Demo.yf "" Demo.no_requests Demo.tone
           "GONE" "LOSS" (-700000)).
  - vm_compute. reflexivity.
  - vm_compute. reflexivity.
  - discriminate.
Defined.

(** *** Upside *)

(** C7.  The upside percentage of the valuation is
    (intrinsicValue - marketCap) / marketCap * 100 when marketCap > 0 and
    exactly 0 otherwise, for every intrinsic value and market
    capitalisation, and computing it never raises.  In every valuation that
    is returned the market capitalisation is the marketCap entry of the
    fetched info, 0 when there is none, the intrinsic value is the one
    computed by the projection, and the upside is that percentage of the
    two; such a valuation is returned for every strictly positive FCF,
    horizon of at least one year and rates with r <> g and r <> -1, as soon
    as the info is fetched. *)
Theorem C7_upside_percentage
  (yf_Ticker : string -> Ticker) (ticker : string) (years : Z) (r g : Q) :
  (forall iv mc,
     (0 < mc -> upside_of iv mc = Ok ((iv - mc) / mc * 100)) /\
     (~ 0 < mc -> upside_of iv mc = Ok 0)) /\
  (forall v,
     discounted_cash_flow_analysis yf_Ticker ticker years r g = Ok (Some v) ->
     exists fcf p inf,
       calculate_fcf yf_Ticker ticker = Some fcf /\
       project fcf years r g = Ok p /\
       info (yf_Ticker ticker) = Ok inf /\
       intrinsic_value v = intrinsic p /\
       market_cap v = dict_get inf "marketCap" 0 /\
       upside_of (intrinsic_value v) (market_cap v) = Ok (upside v) /\
       (0 < market_cap v ->
        upside v = (intrinsic_value v - market_cap v) / market_cap v * 100) /\
       (~ 0 < market_cap v -> upside v = 0)) /\
  (forall fcf inf,
     calculate_fcf yf_Ticker ticker = Some fcf -> 0 < fcf ->
     (1 <= years)%Z -> ~ r == g -> ~ r == -1 ->
     info (yf_Ticker ticker) = Ok inf ->
     exists v,
       discounted_cash_flow_analysis yf_Ticker ticker years r g = Ok (Some v) /\
       intrinsic_value v = Spec.intrinsicValue fcf g r years /\
       market_cap v = dict_get inf "marketCap" 0 /\
       (0 < market_cap v ->
        upside v = (intrinsic_value v - market_cap v) / market_cap v * 100) /\
       (~ 0 < market_cap v -> upside v = 0)).
Proof.
  split; [|split].
  - intros iv mc. rewrite upside_of_Ok. split; intros Hmc.
    + apply Qltb_true in Hmc. now rewrite Hmc.
    + apply Qltb_false in Hmc. now rewrite Hmc.
  - intros v H.
    destruct (dcfa_inv _ _ _ _ _ _ H) as [fcf [p [inf [Hf [_ [Hp [Hinf ->]]]]]]].
    exists fcf, p, inf.
    cbn [intrinsic_value market_cap upside].
    rewrite upside_of_Ok.
    repeat split; try assumption; intros Hmc.
    + apply Qltb_true in Hmc. now rewrite Hmc.
    + apply Qltb_false in Hmc. now rewrite Hmc.
  - intros fcf inf Hf Hpos Hy Hg Hr Hinf.
    exists (valuation_of fcf years r g inf).
    split; [now apply dcfa_Ok|].
    cbn [valuation_of intrinsic_value market_cap upside].
    repeat split; intros Hmc.
    + apply Qltb_true in Hmc. now rewrite Hmc.
    + apply Qltb_false in Hmc. now rewrite Hmc.
Qed.

Lemma C7_witness :
  (exists v,
     discounted_cash_flow_analysis Demo.yf "ACME" 5 (10 # 100) (5 # 100) = Ok (Some v) /\
     market_cap v = 20000000 /\
     intrinsic_value v == 21000000 /\
     upside v == 5) /\
  (exists v,
     discounted_cash_flow_analysis Demo.yf "BARE" 5 (10 # 100) (5 # 100) = Ok (Some v) /\
     market_cap v = 0 /\
     upside v = 0).
Proof.
  split.
  - destruct (C7_upside_percentage Demo.yf "ACME" 5 (10 # 100) (5 # 100))
      as [_ [_ H]].
    destruct (H 1000000 [("marketCap"%string, 20000000)])
      as [v [Hv [Hiv [Hmc [Hup _]]]]].
    + vm_compute. reflexivity.
    + reflexivity.
    + lia.
    + intros E. vm_compute in E. discriminate E.
    + intros E. vm_compute in E. discriminate E.
    + vm_compute. reflexivity.
    + exists v. split; [exact Hv|]. split; [exact Hmc|].
      split; [rewrite Hiv; vm_compute; reflexivity|].
      rewrite Hup by (rewrite Hmc; reflexivity).
      rewrite Hiv, Hmc. vm_compute. reflexivity.
  - destruct (C7_upside_percentage Demo.yf "BARE" 5 (10 # 100) (5 # 100))
      as [_ [_ H]].
    destruct (H 100000 []) as [v [Hv [_ [Hmc [_ Hzero]]]]].
    + vm_compute. reflexivity.
    + reflexivity.
    + lia.
    + intros E. vm_compute in E. discriminate E.
    + intros E. vm_compute in E. discriminate E.
    + vm_compute. reflexivity.
    + exists v. split; [exact Hv|]. split; [exact Hmc|].
      apply Hzero. rewrite Hmc. intros E. discriminate E.
Defined.

(** *** The per-year discounted cash flows *)

Lemma range_length (a b : Z) : List.length (range a b) = Z.to_nat (b - a).
Proof.
  unfold range. now rewrite length_map, length_seq.
Qed.

Lemma nth_map_range {A : Type} (F : Z -> A) (a b i : Z) (d : A) :
  (a <= i < b)%Z ->
  nth (Z.to_nat (i - a)) (map F (range a b)) d = F i.
Proof.
  intros Hi. unfold range. rewrite map_map.
  rewrite (nth_indep _ d (F (a + Z.of_nat 0))%Z)
    by (rewrite length_map, length_seq; lia).
  rewrite (map_nth (fun k => F (a + Z.of_nat k)%Z) (seq 0 (Z.to_nat (b - a))) 0%nat).
  rewrite seq_nth by lia.
  f_equal. lia.
Qed.

Lemma discountedFCF_positive (fcf g r : Q) (i : Z) :
  0 < fcf -> 0 < 1 + g -> 0 < 1 + r -> 0 < Spec.discountedFCF fcf g r i.
Proof.
  intros Hf Hg Hr. unfold Spec.discountedFCF, Spec.futureFCF.
  apply Qlt_shift_div_l; [now apply Qpower_0_lt|].
  rewrite Qmult_0_l.
  apply Qmult_lt_0_compat; [exact Hf | now apply Qpower_0_lt].
Qed.

Lemma project_discounted (fcf : Q) (years : Z) (r g : Q) (p : Projection) :
  project fcf years r g = Ok p ->
  discounted_fcfs_of (future_fcfs_of fcf years g) r = Ok (discounted p).
Proof.
  unfold project.
  destruct (discounted_fcfs_of (future_fcfs_of fcf years g) r) as [l|e]; [|discriminate].
  rewrite bind_Ok.
  destruct (last_item (future_fcfs_of fcf years g)) as [x|e]; [|discriminate].
  rewrite bind_Ok.
  destruct (div (x * (1 + g)) (r - g)) as [tv|e]; [|discriminate].
  rewrite bind_Ok.
  destruct (div tv (pow (1 + r) years)) as [dtv|e]; [|discriminate].
  rewrite bind_Ok. intros E. injection E as <-. reflexivity.
Qed.

(** C9 (as amended).  For FCF > 0, [years >= 1], 1 + growthRate > 0 and
    1 + discountRate > 0, the discounted cash flows are computed without a
    fault; the sequence has exactly [years] entries, entry i - 1 is the one
    of year i for i = 1..years, and in exact arithmetic every entry is
    strictly positive.  It is the sequence of every valuation that is
    returned, and a valuation is returned as soon as the rates differ and
    the market data is fetched. *)
Theorem C9_discounted_fcfs_shape
  (yf_Ticker : string -> Ticker) (ticker : string)
  (fcf : Q) (years : Z) (r g : Q) :
  calculate_fcf yf_Ticker ticker = Some fcf -> 0 < fcf ->
  (1 <= years)%Z -> 0 < 1 + g -> 0 < 1 + r ->
  exists l,
    discounted_fcfs_of (future_fcfs_of fcf years g) r = Ok l /\
    len l = years /\
    (forall i, (1 <= i <= years)%Z ->
       nth (Z.to_nat (i - 1)) l 0 = fcf * (1 + g) ^ i / (1 + r) ^ i) /\
    Forall (fun x => 0 < x) l /\
    (forall v,
       discounted_cash_flow_analysis yf_Ticker ticker years r g = Ok (Some v) ->
       discounted_fcfs v = l) /\
    (forall inf, info (yf_Ticker ticker) = Ok inf -> ~ r == g ->
       exists v,
         discounted_cash_flow_analysis yf_Ticker ticker years r g = Ok (Some v) /\
         discounted_fcfs v = l).
Proof.
  intros Hf Hpos Hy Hg Hr.
  assert (Hr' : ~ 1 + r == 0) by lra.
  assert (Hl : discounted_fcfs_of (future_fcfs_of fcf years g) r
               = Ok (map (Spec.discountedFCF fcf g r) (range 1 (years + 1)))).
  { rewrite <- (Z2Nat.id years) by lia.
    rewrite discounted_fcfs_of_seq by exact Hr'.
    now rewrite range_from_1, map_map. }
  exists (map (Spec.discountedFCF fcf g r) (range 1 (years + 1))).
  split; [exact Hl|].
  split; [unfold len; rewrite length_map, range_length; lia|].
  split; [intros i Hi; rewrite nth_map_range by lia; reflexivity|].
  split.
  { apply Forall_forall. intros x Hx.
    apply in_map_iff in Hx. destruct Hx as [i [<- _]].
    now apply discountedFCF_positive. }
  split.
  - intros v Hv.
    destruct (dcfa_inv _ _ _ _ _ _ Hv) as [fcf' [p [inf [Hf' [_ [Hp [_ ->]]]]]]].
    rewrite Hf in Hf'. injection Hf' as <-.
    apply project_discounted in Hp. rewrite Hl in Hp.
    injection Hp as Hp. cbn [discounted_fcfs]. now symmetry.
  - intros inf Hinf Hne.
    exists (valuation_of fcf years r g inf). split; [|reflexivity].
    apply dcfa_Ok; try assumption. intros E. lra.
Qed.

Lemma C9_witness :
  exists v,
    discounted_cash_flow_analysis Demo.yf "ACME" 5 (10 # 100) (5 # 100) = Ok (Some v) /\
    len (discounted_fcfs v) = 5%Z /\
    Forall (fun x => 0 < x) (discounted_fcfs v).
Proof.
  destruct (C9_discounted_fcfs_shape Demo.yf "ACME" 1000000 5 (10 # 100) (5 # 100))
    as [l [_ [Hlen [_ [Hall [_ Hret]]]]]].
  - vm_compute. reflexivity.
  - reflexivity.
  - lia.
  - reflexivity.
  - reflexivity.
  - destruct (Hret [("marketCap"%string, 20000000)]) as [v [Hv El]].
    + vm_compute. reflexivity.
    + intros E. vm_compute in E. discriminate E.
    + exists v. rewrite El. repeat split; assumption.
Defined.

(** ** The statement field resolver *)

Lemma mem_In (s : string) (l : list string) : mem s l = true <-> In s l.
Proof.
  unfold mem. rewrite existsb_exists. split.
  - intros [x [Hx E]]. apply String.eqb_eq in E. now subst x.
  - intros H. exists s. split; [exact H | apply String.eqb_refl].
Qed.

Lemma mem_not_In (s : string) (l : list string) : mem s l = false <-> ~ In s l.
Proof.
  rewrite <- mem_In. destruct (mem s l); split; congruence.
Qed.

Lemma loc_present (statement : DataFrame) (label col : string) :
  In col (columns statement) -> loc statement label col = Ok (cell statement label col).
Proof.
  intros H. unfold loc. apply mem_In in H. now rewrite H.
Qed.

Lemma loc_missing (statement : DataFrame) (label col : string) :
  ~ In col (columns statement) -> loc statement label col = Raise KeyError.
Proof.
  intros H. unfold loc. apply mem_not_In in H. now rewrite H.
Qed.

Lemma safe_get_no_label (statement : DataFrame) (labels : list string) (col : string) :
  (forall l, In l labels -> ~ In l (index statement)) ->
  safe_get statement labels col = Ok 0.
Proof.
  induction labels as [|l labels IH]; intros H; simpl; [reflexivity|].
  assert (Hl : mem l (index statement) = false)
    by (apply mem_not_In, H; now left).
  rewrite Hl. apply IH. intros x Hx. apply H. now right.
Qed.

Lemma safe_get_first_label
  (statement : DataFrame) (pre : list string) (l : string) (post : list string)
  (col : string) :
  (forall x, In x pre -> ~ In x (index statement)) ->
  In l (index statement) ->
  safe_get statement (pre ++ l :: post) col = loc statement l col.
Proof.
  intros Hpre Hl. induction pre as [|x pre IH]; simpl.
  - apply mem_In in Hl. now rewrite Hl.
  - assert (Hx : mem x (index statement) = false)
      by (apply mem_not_In, Hpre; now left).
    rewrite Hx. apply IH. intros y Hy. apply Hpre. now right.
Qed.

Lemma safe_get_total (statement : DataFrame) (labels : list string) (col : string) :
  In col (columns statement) ->
  exists q, safe_get statement labels col = Ok q.
Proof.
  intros Hc. induction labels as [|l labels IH]; simpl.
  - now exists 0.
  - destruct (mem l (index statement)); [|exact IH].
    exists (cell statement l col). now apply loc_present.
Qed.

(** C6 (as amended).  [safe_get] returns 0 when no candidate label is a row
    of the statement, whatever the period.  Otherwise it looks up the first
    candidate label, in priority order, that is a row of the statement: for
    a period that is a column of the statement it returns the value of that
    row for that period, and for a period that is not a column it raises
    KeyError. *)
Theorem C6_safe_get_first_match
  (statement : DataFrame) (labels : list string) (col : string) :
  ((forall l, In l labels -> ~ In l (index statement)) ->
   safe_get statement labels col = Ok 0) /\
  (forall pre l post,
     labels = pre ++ l :: post ->
     (forall x, In x pre -> ~ In x (index statement)) ->
     In l (index statement) ->
     (In col (columns statement) ->
      safe_get statement labels col = Ok (cell statement l col)) /\
     (~ In col (columns statement) ->
      safe_get statement labels col = Raise KeyError)).
Proof.
  split.
  - apply safe_get_no_label.
  - intros pre l post -> Hpre Hl.
    rewrite safe_get_first_label by assumption.
    split; intros Hc; [now apply loc_present | now apply loc_missing].
Qed.

Lemma C6_witness :
  safe_get Demo.cash_bare depreciation_labels "2023" = Ok 100000 /\
  safe_get Demo.cash_bare capex_labels "2023" = Ok 0.
Proof.
  split.
  - destruct (C6_safe_get_first_match Demo.cash_bare depreciation_labels "2023")
      as [_ H].
    destruct (H ["Depreciation"%string] "Depreciation & Amortization"%string [])
      as [Hin _].
    + reflexivity.
    + intros x [<- | []] [E | []]. discriminate E.
    + now left.
    + apply Hin. now left.
  - destruct (C6_safe_get_first_match Demo.cash_bare capex_labels "2023")
      as [H _].
    apply H. intros l [<- | [<- | []]] [E | []]; discriminate E.
Defined.

(** The income statement has the row "Operating Income" and the periods
    2023 and 2022; asking for the period 2024 raises. *)
Lemma C6_counterexample :
  In "Operating Income"%string (index Demo.income) /\
  safe_get Demo.income ebit_labels "2024" = Raise KeyError.
Proof.
  split; [right; now left | vm_compute; reflexivity].
Qed.

(** ** Free cash flow *)

(** C5 (as amended).  [calculate_fcf] returns EBIT + Depreciation - CapEx -
    change in working capital for the first period column of the income
    statement, each component resolved by [safe_get] with its list of
    labels.  The computation proceeds whenever both statements are fetched,
    the income statement has a period column and that period is a column of
    the cash-flow statement; every component none of whose labels is a row
    of its statement is 0, EBIT included.  When a statement cannot be
    fetched or the income statement has no period column the result is
    None. *)
Theorem C5_calculate_fcf
  (yf_Ticker : string -> Ticker) (ticker : string) :
  (forall income_stmt cashflow_stmt latest_year rest,
     financials (yf_Ticker ticker) = Ok income_stmt ->
     cashflow (yf_Ticker ticker) = Ok cashflow_stmt ->
     columns income_stmt = latest_year :: rest ->
     In latest_year (columns cashflow_stmt) ->
     exists ebit depreciation capex wc_change,
       safe_get income_stmt ["Operating Income"; "EBIT"]%string latest_year
       = Ok ebit /\
       safe_get cashflow_stmt ["Depreciation"; "Depreciation & Amortization"]%string
         latest_year = Ok depreciation /\
       safe_get cashflow_stmt ["Capital Expenditures"; "Capital expenditure"]%string
         latest_year = Ok capex /\
       safe_get cashflow_stmt
         ["Change in Working Capital"; "Changes in working capital"]%string
         latest_year = Ok wc_change /\
       calculate_fcf yf_Ticker ticker = Some (ebit + depreciation - capex - wc_change) /\
       ((forall l, In l ebit_labels -> ~ In l (index income_stmt)) -> ebit = 0) /\
       ((forall l, In l depreciation_labels -> ~ In l (index cashflow_stmt)) ->
        depreciation = 0) /\
       ((forall l, In l capex_labels -> ~ In l (index cashflow_stmt)) -> capex = 0) /\
       ((forall l, In l wc_labels -> ~ In l (index cashflow_stmt)) -> wc_change = 0)) /\
  (forall e, financials (yf_Ticker ticker) = Raise e ->
     calculate_fcf yf_Ticker ticker = None) /\
  (forall income_stmt e,
     financials (yf_Ticker ticker) = Ok income_stmt ->
     cashflow (yf_Ticker ticker) = Raise e ->
     calculate_fcf yf_Ticker ticker = None) /\
  (forall income_stmt cashflow_stmt,
     financials (yf_Ticker ticker) = Ok income_stmt ->
     cashflow (yf_Ticker ticker) = Ok cashflow_stmt ->
     columns income_stmt = [] ->
     calculate_fcf yf_Ticker ticker = None).
Proof.
  split; [|split; [|split]].
  - intros inc cf latest rest Hinc Hcf Hcols Hin.
    assert (Hin' : In latest (columns inc)) by (rewrite Hcols; now left).
    destruct (safe_get_total inc ebit_labels latest Hin') as [ebit He].
    destruct (safe_get_total cf depreciation_labels latest Hin) as [dep Hd].
    destruct (safe_get_total cf capex_labels latest Hin) as [capex Hc].
    destruct (safe_get_total cf wc_labels latest Hin) as [wc Hw].
    exists ebit, dep, capex, wc.
    split; [exact He|]. split; [exact Hd|]. split; [exact Hc|]. split; [exact Hw|].
    split.
    { unfold calculate_fcf, fcf_body.
      rewrite Hinc, Hcf, !bind_Ok, Hcols. cbn [first_item].
      now rewrite !bind_Ok, He, !bind_Ok, Hd, !bind_Ok, Hc, !bind_Ok, Hw. }
    repeat split; intros Habs.
    + rewrite (safe_get_no_label _ _ latest Habs) in He. now injection He.
    + rewrite (safe_get_no_label _ _ latest Habs) in Hd. now injection Hd.
    + rewrite (safe_get_no_label _ _ latest Habs) in Hc. now injection Hc.
    + rewrite (safe_get_no_label _ _ latest Habs) in Hw. now injection Hw.
  - intros e H. unfold calculate_fcf, fcf_body. now rewrite H.
  - intros inc e Hinc H. unfold calculate_fcf, fcf_body. now rewrite Hinc, H.
  - intros inc cf Hinc Hcf Hcols. unfold calculate_fcf, fcf_body.
    now rewrite Hinc, Hcf, !bind_Ok, Hcols.
Qed.

Lemma C5_witness :
  calculate_fcf Demo.yf "ACME" = Some (1200000 + 100000 - 250000 - 50000).
Proof.
  destruct (C5_calculate_fcf Demo.yf "ACME") as [H _].
  destruct (H Demo.income Demo.cash "2023"%string ["2022"%string])
    as [ebit [dep [capex [wc [He [Hd [Hc [Hw [Hf _]]]]]]]]].
  - reflexivity.
  - reflexivity.
  - reflexivity.
  - now left.
  - rewrite Hf.
    vm_compute in He, Hd, Hc, Hw.
    injection He as <-. injection Hd as <-. injection Hc as <-. injection Hw as <-.
    reflexivity.
Defined.

(** No EBIT label is a row of the income statement, and the computation
    proceeds all the same, with EBIT taken as 0. *)
Lemma C5_counterexample :
  (forall l, In l ebit_labels -> ~ In l (index Demo.income_bare)) /\
  safe_get Demo.income_bare ebit_labels "2023" = Ok 0 /\
  calculate_fcf Demo.yf "BARE" = Some 100000.
Proof.
  split; [|split; vm_compute; reflexivity].
  intros l [<- | [<- | []]] [E | []]; discriminate E.
Qed.

(** ** Sentiment *)

Lemma fold_left_Qplus (xs : list Q) (a : Q) :
  fold_left Qplus xs a == a + fold_right Qplus 0 xs.
Proof.
  revert a. induction xs as [|x xs IH]; intros a; simpl.
  - ring.
  - rewrite IH. ring.
Qed.

Lemma get_security_news_no_key
  (requests_get : string -> result Response) (ticker : string) :
  get_security_news "" requests_get ticker = [].
Proof. reflexivity. Qed.

(** C8.  [analyze_sentiment] returns exactly 0 for the empty article list,
    and the adjusted upside, upside + sentiment * 50, then equals the raw
    upside; for a non-empty list it returns the sum of the polarity scores
    of the articles divided by their number, their arithmetic mean. *)
Theorem C8_sentiment
  (yf_Ticker : string -> Ticker) (NEWS_API_KEY : string)
  (requests_get : string -> result Response) (polarity : string -> Q) :
  analyze_sentiment polarity [] = Ok 0 /\
  (forall ticker v,
     discounted_cash_flow_analysis yf_Ticker ticker default_years
       default_discount_rate default_growth_rate = Ok (Some v) ->
     get_security_news NEWS_API_KEY requests_get ticker = [] ->
     exists adjusted plot,
       evaluate_security yf_Ticker NEWS_API_KEY requests_get polarity ticker
       = Ok (Report (intrinsic_value v) (market_cap v) (upside v) 0 adjusted
               plot (market_cap v)) /\
       adjusted = upside v + 0 * 50 /\
       adjusted == upside v) /\
  (forall article rest,
     exists score,
       analyze_sentiment polarity (article :: rest) = Ok score /\
       score = sum (map polarity (article :: rest))
               / inject_Z (len (article :: rest)) /\
       score == Spec.mean (map polarity (article :: rest))).
Proof.
  split; [reflexivity|]. split.
  - intros ticker v Hv Hnews.
    unfold evaluate_security. rewrite Hv, bind_Ok, Hnews.
    cbn [analyze_sentiment]. rewrite bind_Ok.
    eexists. eexists. split; [reflexivity|].
    split; [reflexivity | ring].
  - intros article rest.
    assert (Hn : ~ inject_Z (len (map polarity (article :: rest))) == 0).
    { unfold len. cbn [map List.length]. rewrite Nat2Z.inj_succ.
      unfold Qeq, inject_Z. cbn [Qnum Qden]. lia. }
    eexists. split; [|split].
    + unfold analyze_sentiment. apply div_Ok. exact Hn.
    + unfold len. now rewrite length_map.
    + unfold Spec.mean, sum, len.
      rewrite fold_left_Qplus. rewrite Qplus_0_l. reflexivity.
Qed.

Lemma C8_witness :
  (exists adjusted plot,
     evaluate_security Demo.yf "" Demo.no_requests Demo.tone "ACME"
     = Ok (Report
             (intrinsic_value
                (valuation_of 1000000 5 (10 # 100) (5 # 100)
                   [("marketCap"%string, 20000000)]))
             20000000
             (upside
                (valuation_of 1000000 5 (10 # 100) (5 # 100)
                   [("marketCap"%string, 20000000)]))
             0 adjusted plot 20000000) /\
     adjusted ==
     upside (valuation_of 1000000 5 (10 # 100) (5 # 100)
               [("marketCap"%string, 20000000)])) /\
  (exists score,
     analyze_sentiment Demo.tone Demo.headlines = Ok score /\ score == 2 # 10).
Proof.
  destruct (C8_sentiment Demo.yf "" Demo.no_requests Demo.tone) as [_ [Hev Hmean]].
  split.
  - destruct (Hev "ACME"%string
                (valuation_of 1000000 5 (10 # 100) (5 # 100)
                   [("marketCap"%string, 20000000)]))
      as [adjusted [plot [Hr [_ Ha]]]].
    + apply dcfa_Ok; try (vm_compute; reflexivity); try (unfold default_years; lia);
        intros E; vm_compute in E; discriminate E.
    + reflexivity.
    + exists adjusted, plot. split; [exact Hr | exact Ha].
  - destruct (Hmean "Acme beats estimates. Strong quarter"%string
                ["Acme recalls product. "%string])
      as [score [Hs [Hv _]]].
    exists score. split; [exact Hs|].
    rewrite Hv. vm_compute. reflexivity.
Defined.

(** ** News retrieval *)

Lemma comprehension_length {A B : Type} (f : A -> result B) (xs : list A) (ys : list B) :
  comprehension f xs = Ok ys -> List.length ys = List.length xs.
Proof.
  revert ys. induction xs as [|x xs IH]; intros ys; simpl.
  - intros E. injection E as <-. reflexivity.
  - destruct (f x) as [y|e]; [|discriminate]. simpl.
    destruct (comprehension f xs) as [ys'|e]; [|discriminate]. simpl.
    intros E. injection E as <-. simpl. f_equal. now apply IH.
Qed.

Lemma comprehension_Raise {A B : Type} (f : A -> result B) (xs : list A) (x : A) (e : exn) :
  In x xs -> f x = Raise e -> exists e', comprehension f xs = Raise e'.
Proof.
  intros Hin Hx. induction xs as [|y xs IH]; [destruct Hin|]. simpl.
  destruct (f y) as [z|e1] eqn:Ey; [|now exists e1]. simpl.
  destruct Hin as [-> | Hin]; [congruence|].
  destruct (IH Hin) as [e' ->]. now exists e'.
Qed.

Lemma article_text_scorable (a : Article) :
  scorable a -> article_text a = Ok (headline a).
Proof.
  intros [[t Ht] Hd]. unfold article_text, headline. rewrite Ht.
  destruct (description a); [reflexivity | contradiction | reflexivity].
Qed.

Lemma article_text_unscorable (a : Article) :
  title a = Missing \/ title a = Null \/ description a = Null ->
  exists e, article_text a = Raise e.
Proof.
  unfold article_text. intros [-> | [-> | Hd]].
  - now exists KeyError.
  - now exists TypeError.
  - destruct (title a); [now exists KeyError | now exists TypeError|].
    rewrite Hd. now exists TypeError.
Qed.

Lemma key_not_empty (key : string) : key <> ""%string -> String.eqb key "" = false.
Proof.
  intros H. now apply String.eqb_neq.
Qed.

(** X1.  Whatever the key, the response and the ticker are,
    [get_security_news] returns at most five texts. *)
Theorem X1_news_at_most_five
  (NEWS_API_KEY : string) (requests_get : string -> result Response) (ticker : string) :
  (List.length (get_security_news NEWS_API_KEY requests_get ticker) <= 5)%nat.
Proof.
  unfold get_security_news.
  destruct (String.eqb NEWS_API_KEY ""); [simpl; lia|].
  destruct (requests_get _) as [response|e]; [|simpl; lia].
  destruct (negb _); [simpl; lia|].
  destruct (json_articles response) as [data|e]; [|simpl; lia].
  rewrite bind_Ok.
  destruct (comprehension article_text _) as [texts|e] eqn:E; [|simpl; lia].
  apply comprehension_length in E. rewrite E, length_firstn. lia.
Qed.

(** X2.  With a key, a response of status 200 and, in each of the first
    five articles, a title that is a string and a description that is a
    string or missing, [get_security_news] returns, in order, the texts of
    the first five articles: title, full stop, description (empty when the
    key is missing).  Later articles are not read. *)
Theorem X2_news_texts
  (NEWS_API_KEY : string) (requests_get : string -> result Response) (ticker : string)
  (response : Response) (data : option (list Article)) :
  NEWS_API_KEY <> ""%string ->
  requests_get (news_url NEWS_API_KEY ticker) = Ok response ->
  status_code response = 200%Z ->
  json_articles response = Ok data ->
  (forall a, In a (firstn 5 (articles_of data)) -> scorable a) ->
  get_security_news NEWS_API_KEY requests_get ticker
  = map headline (firstn 5 (articles_of data)).
Proof.
  intros Hkey Hreq Hstatus Hjson Htitles.
  unfold get_security_news.
  rewrite (key_not_empty _ Hkey), Hreq, Hstatus, Hjson. cbn [Z.eqb Pos.eqb negb].
  rewrite bind_Ok.
  fold (articles_of data).
  rewrite (comprehension_Ok article_text headline); [reflexivity|].
  intros a Ha. apply article_text_scorable. now apply Htitles.
Qed.

Lemma X2_witness :
  get_security_news "k" Demo2.news_ok "ACME"
  = ["Acme beats estimates. Strong quarter"; "Acme recalls product. ";
     "Acme opens plant. Capacity doubles"; "Acme names CFO. Effective in May";
     "Acme pays dividend. "]%string.
Proof.
  rewrite (X2_news_texts "k" Demo2.news_ok "ACME"
             (mkResponse 200 (Ok (Some Demo2.articles))) (Some Demo2.articles)).
  - reflexivity.
  - discriminate.
  - reflexivity.
  - reflexivity.
  - reflexivity.
  - intros a Ha. cbn in Ha.
    destruct Ha as [<- | [<- | [<- | [<- | [<- | []]]]]];
      (split; [eexists; reflexivity | discriminate]).
Defined.

(** X3.  [get_security_news] never raises and degrades to the empty list:
    without a key, when the request raises, when the status is not 200,
    when the body cannot be decoded or has no articles, and when one of the
    first five articles has a missing or [null] title or a [null]
    description (the texts of the other articles are dropped as well). *)
Theorem X3_news_degrades_to_empty
  (NEWS_API_KEY : string) (requests_get : string -> result Response) (ticker : string) :
  (NEWS_API_KEY = ""%string \/
   (exists e, requests_get (news_url NEWS_API_KEY ticker) = Raise e) \/
   (exists response,
      requests_get (news_url NEWS_API_KEY ticker) = Ok response /\
      (status_code response <> 200%Z \/
       (exists e, json_articles response = Raise e) \/
       json_articles response = Ok None \/
       (exists l a,
          json_articles response = Ok (Some l) /\
          In a (firstn 5 l) /\
          (title a = Missing \/ title a = Null \/ description a = Null))))) ->
  get_security_news NEWS_API_KEY requests_get ticker = [].
Proof.
  unfold get_security_news.
  intros [-> | H]; [reflexivity|].
  destruct (String.eqb NEWS_API_KEY ""); [reflexivity|].
  destruct H as [[e ->] | [response [-> H]]]; [reflexivity|].
  destruct (Z.eqb (status_code response) 200) eqn:Es; [|reflexivity].
  apply Z.eqb_eq in Es. cbn [negb].
  destruct H as [H | [[e ->] | [-> | [l [a [-> [Hin Ht]]]]]]].
  - contradiction.
  - reflexivity.
  - reflexivity.
  - rewrite bind_Ok.
    destruct (article_text_unscorable a Ht) as [e He].
    destruct (comprehension_Raise article_text (firstn 5 l) a e Hin He) as [e' ->].
    reflexivity.
Qed.

Lemma X3_witness :
  get_security_news "" Demo2.news_ok "ACME" = [] /\
  get_security_news "k" Demo.no_requests "ACME" = [] /\
  get_security_news "k" Demo2.news_untitled "ACME" = [] /\
  get_security_news "k" Demo2.news_null "ACME" = [].
Proof.
  split; [|split; [|split]].
  - apply X3_news_degrades_to_empty. now left.
  - apply X3_news_degrades_to_empty. right. left.
    exists ConnectionError. reflexivity.
  - apply X3_news_degrades_to_empty. right. right.
    exists (mkResponse 200 (Ok (Some Demo2.articles_untitled))).
    split; [reflexivity|]. right. right. right.
    exists Demo2.articles_untitled, (mkArticle Missing (Text "Untitled")).
    split; [reflexivity|]. split; [right; now left | now left].
  - apply X3_news_degrades_to_empty. right. right.
    exists (mkResponse 200 (Ok (Some Demo2.articles_null))).
    split; [reflexivity|]. right. right. right.
    exists Demo2.articles_null, (mkArticle (Text "Acme recalls product") Null).
    split; [reflexivity|]. split; [right; now left | right; now right].
Defined.

(** ** Sentiment score and adjusted upside *)

Lemma inject_Z_len_cons {A : Type} (x : A) (xs : list A) :
  inject_Z (len (x :: xs)) == inject_Z (len xs) + 1.
Proof.
  unfold len. cbn [List.length]. rewrite Nat2Z.inj_succ. unfold Z.succ.
  now rewrite inject_Z_plus.
Qed.

Lemma inject_Z_len_nonneg {A : Type} (xs : list A) : 0 <= inject_Z (len xs).
Proof.
  unfold len. change 0 with (inject_Z 0). rewrite <- Zle_Qle. lia.
Qed.

Lemma analyze_sentiment_value (polarity : string -> Q) (news : list string) :
  analyze_sentiment polarity news
  = Ok (match news with
        | [] => 0
        | _ => sum (map polarity news) / inject_Z (len (map polarity news))
        end).
Proof.
  destruct news as [|a rest]; [reflexivity|].
  unfold analyze_sentiment. apply div_Ok.
  cbn [map]. rewrite inject_Z_len_cons.
  pose proof (inject_Z_len_nonneg (map polarity rest)). lra.
Qed.

Lemma fold_right_Qplus_bounds (lo hi : Q) (xs : list Q) :
  (forall x, In x xs -> lo <= x /\ x <= hi) ->
  lo * inject_Z (len xs) <= fold_right Qplus 0 xs /\
  fold_right Qplus 0 xs <= hi * inject_Z (len xs).
Proof.
  induction xs as [|x xs IH]; intros H.
  - change (inject_Z (len (@nil Q))) with 0. cbn [fold_right]. split; lra.
  - destruct IH as [IHlo IHhi]; [intros y Hy; apply H; now right|].
    destruct (H x (or_introl eq_refl)) as [Hlo Hhi].
    rewrite inject_Z_len_cons. cbn [fold_right]. split; lra.
Qed.

Lemma mean_bounds (lo hi : Q) (x : Q) (xs : list Q) :
  (forall y, In y (x :: xs) -> lo <= y /\ y <= hi) ->
  lo <= sum (x :: xs) / inject_Z (len (x :: xs)) /\
  sum (x :: xs) / inject_Z (len (x :: xs)) <= hi.
Proof.
  intros H.
  destruct (fold_right_Qplus_bounds lo hi (x :: xs) H) as [Hlo Hhi].
  assert (Hn : 0 < inject_Z (len (x :: xs))).
  { rewrite inject_Z_len_cons. pose proof (inject_Z_len_nonneg xs). lra. }
  unfold sum. rewrite fold_left_Qplus, Qplus_0_l.
  split.
  - apply Qle_shift_div_l; assumption.
  - apply Qle_shift_div_r; assumption.
Qed.

Lemma sentiment_bounds (polarity : string -> Q) (news : list string) (lo hi s : Q) :
  lo <= 0 -> 0 <= hi ->
  (forall a, In a news -> lo <= polarity a /\ polarity a <= hi) ->
  analyze_sentiment polarity news = Ok s ->
  lo <= s /\ s <= hi.
Proof.
  intros Hlo Hhi Hp. rewrite analyze_sentiment_value.
  intros E. injection E as <-.
  destruct news as [|a rest]; [split; assumption|].
  cbn [map]. apply mean_bounds.
  intros y Hy. change (polarity a :: map polarity rest) with (map polarity (a :: rest)) in Hy.
  apply in_map_iff in Hy. destruct Hy as [b [<- Hb]]. now apply Hp.
Qed.

(** X4.  [analyze_sentiment] never raises, and in exact arithmetic, when
    the polarity of every article lies between [lo] and [hi], with
    [lo <= 0 <= hi], so does the score it returns.  (In double precision
    the rounded mean can leave the interval by a unit in the last place.) *)
Theorem X4_sentiment_within_bounds
  (polarity : string -> Q) (news : list string) (lo hi : Q) :
  lo <= 0 -> 0 <= hi ->
  (forall a, In a news -> lo <= polarity a /\ polarity a <= hi) ->
  exists s, analyze_sentiment polarity news = Ok s /\ lo <= s /\ s <= hi.
Proof.
  intros Hlo Hhi Hp.
  eexists. split; [apply analyze_sentiment_value|].
  apply (sentiment_bounds polarity news); try assumption.
  apply analyze_sentiment_value.
Qed.

Lemma X4_witness :
  exists s, analyze_sentiment Demo.tone Demo.headlines = Ok s /\ -1 <= s /\ s <= 1.
Proof.
  apply (X4_sentiment_within_bounds Demo.tone Demo.headlines (-1) 1).
  - discriminate.
  - discriminate.
  - intros a [<- | [<- | []]]; split; discriminate.
Defined.



(** ** The evaluation as a whole *)

Lemma default_perpetuity (fcf : Q) :
  fcf * (1 + default_growth_rate) / (default_discount_rate - default_growth_rate)
  == 21 * fcf.
Proof.
  unfold default_growth_rate, default_discount_rate. field.
Qed.

(** X6.  For a ticker with a strictly positive FCF and market data that can
    be fetched, [evaluate_security] always ends with a report, whatever the
    news are: the intrinsic value is 21 times the FCF, the plot has the five
    discounted cash flows against the years 1 to 5, the reference line is
    the market capitalisation, and the adjusted upside is the upside plus
    fifty times the sentiment score. *)
Theorem X6_report_with_defaults
  (yf_Ticker : string -> Ticker) (NEWS_API_KEY : string)
  (requests_get : string -> result Response) (polarity : string -> Q)
  (ticker : string) (fcf : Q) (inf : list (string * Q)) :
  calculate_fcf yf_Ticker ticker = Some fcf -> 0 < fcf ->
  info (yf_Ticker ticker) = Ok inf ->
  exists iv up s d1 d2 d3 d4 d5,
    evaluate_security yf_Ticker NEWS_API_KEY requests_get polarity ticker
    = Ok (Report iv (dict_get inf "marketCap" 0) up s (up + s * 50)
            [(1%Z, d1); (2%Z, d2); (3%Z, d3); (4%Z, d4); (5%Z, d5)]
            (dict_get inf "marketCap" 0)) /\
    iv == 21 * fcf /\
    analyze_sentiment polarity (get_security_news NEWS_API_KEY requests_get ticker)
    = Ok s /\
    discounted_cash_flow_analysis yf_Ticker ticker 5 (10 # 100) (5 # 100)
    = Ok (Some (mkValuation iv (dict_get inf "marketCap" 0) up [d1; d2; d3; d4; d5]
                  (Spec.discountedTV fcf (5 # 100) (10 # 100) 5))).
Proof.
  intros Hf Hpos Hinf.
  assert (Hd : discounted_cash_flow_analysis yf_Ticker ticker default_years
                 default_discount_rate default_growth_rate
               = Ok (Some (valuation_of fcf default_years default_discount_rate
                             default_growth_rate inf))).
  { apply dcfa_Ok; try assumption; try (unfold default_years; lia);
      intros E; vm_compute in E; discriminate E. }
  unfold evaluate_security. rewrite Hd, bind_Ok.
  rewrite analyze_sentiment_value, bind_Ok.
  do 8 eexists.
  split; [|split; [|split]].
  - cbn [valuation_of intrinsic_value market_cap upside discounted_fcfs].
    unfold default_years. cbn [range Z.add Z.sub Pos.add Pos.succ Z.pos_sub
      Pos.pred_double Z.to_nat Pos.to_nat Pos.iter_op Nat.add seq map len
      List.length Z.of_nat Pos.of_succ_nat combine].
    reflexivity.
  - cbn [valuation_of]. rewrite intrinsic_closed.
    + apply default_perpetuity.
    + unfold default_years. lia.
    + intros E; vm_compute in E; discriminate E.
    + intros E; vm_compute in E; discriminate E.
  - reflexivity.
  - exact Hd.
Qed.

Lemma X6_witness :
  exists iv up s adj plot,
    evaluate_security Demo.yf "k" Demo2.news_ok Demo.tone "ACME"
    = Ok (Report iv 20000000 up s adj plot 20000000) /\
    iv == 21000000.
Proof.
  destruct (X6_report_with_defaults Demo.yf "k" Demo2.news_ok Demo.tone "ACME"
              1000000 [("marketCap"%string, 20000000)])
    as [iv [up [s [d1 [d2 [d3 [d4 [d5 [Hr [Hiv _]]]]]]]]]].
  - vm_compute. reflexivity.
  - reflexivity.
  - vm_compute. reflexivity.
  - exists iv, up, s, (up + s * 50), [(1%Z, d1); (2%Z, d2); (3%Z, d3); (4%Z, d4); (5%Z, d5)].
    split; [exact Hr|]. rewrite Hiv. reflexivity.
Defined.

(** X7.  The market capitalisation is fetched outside any handler: for a
    strictly positive FCF and rates and horizon at which the projection
    succeeds, a failing fetch ends the valuation with the exception of the
    fetch, and [evaluate_security] ends with it too, without the early
    exit. *)
Theorem X7_market_cap_failure_propagates
  (yf_Ticker : string -> Ticker) (NEWS_API_KEY : string)
  (requests_get : string -> result Response) (polarity : string -> Q)
  (ticker : string) (fcf : Q) (e : exn) :
  calculate_fcf yf_Ticker ticker = Some fcf -> 0 < fcf ->
  info (yf_Ticker ticker) = Raise e ->
  (forall years r g, (1 <= years)%Z -> ~ r == -1 -> ~ r == g ->
     discounted_cash_flow_analysis yf_Ticker ticker years r g = Raise e) /\
  evaluate_security yf_Ticker NEWS_API_KEY requests_get polarity ticker = Raise e.
Proof.
  intros Hf Hpos Hinf.
  assert (H : forall years r g, (1 <= years)%Z -> ~ r == -1 -> ~ r == g ->
            discounted_cash_flow_analysis yf_Ticker ticker years r g = Raise e).
  { intros years r g Hy Hr Hg.
    rewrite (dcfa_positive _ _ fcf) by assumption.
    unfold dcf_body. rewrite project_Ok by assumption.
    now rewrite bind_Ok, Hinf. }
  split; [exact H|].
  unfold evaluate_security. rewrite H; [reflexivity | | |].
  - unfold default_years. lia.
  - intros E; vm_compute in E; discriminate E.
  - intros E; vm_compute in E; discriminate E.
Qed.

Lemma X7_witness :
  evaluate_security Demo2.yf "" Demo.no_requests Demo.tone "DARK"
  = Raise ConnectionError.
Proof.
  apply (X7_market_cap_failure_propagates Demo2.yf "" Demo.no_requests Demo.tone
           "DARK" 1000000 ConnectionError).
  - vm_compute. reflexivity.
  - reflexivity.
  - reflexivity.
Defined.

(** ** Edge cases of the valuation *)


(** X8.  With a strictly positive FCF and a horizon of zero or fewer years
    the valuation raises IndexError, whatever the rates and the market data
    are: there is no last projected cash flow. *)
Theorem X8_no_horizon_raises
  (yf_Ticker : string -> Ticker) (ticker : string)
  (fcf : Q) (years : Z) (r g : Q) :
  calculate_fcf yf_Ticker ticker = Some fcf -> 0 < fcf -> (years <= 0)%Z ->
  discounted_cash_flow_analysis yf_Ticker ticker years r g = Raise IndexError.
Proof.
  intros Hf Hpos Hy.
  rewrite (dcfa_positive _ _ fcf) by assumption.
  unfold dcf_body. now rewrite project_no_years.
Qed.

Lemma X8_witness :
  discounted_cash_flow_analysis Demo.yf "ACME" (-3) (5 # 100) (5 # 100)
  = Raise IndexError.
Proof.
  apply (X8_no_horizon_raises Demo.yf "ACME" 1000000).
  - vm_compute. reflexivity.
  - reflexivity.
  - lia.
Defined.

(** X10.  The intrinsic value does not depend on the horizon: for a
    strictly positive FCF, rates with r <> g and r <> -1 and any two
    horizons of at least one year, the valuations returned have equal
    intrinsic values, both equal to FCF * (1 + g) / (r - g). *)
Theorem X10_horizon_independent
  (yf_Ticker : string -> Ticker) (ticker : string)
  (fcf : Q) (y1 y2 : Z) (r g : Q) (inf : list (string * Q)) :
  calculate_fcf yf_Ticker ticker = Some fcf -> 0 < fcf ->
  (1 <= y1)%Z -> (1 <= y2)%Z -> ~ r == g -> ~ r == -1 ->
  info (yf_Ticker ticker) = Ok inf ->
  exists v1 v2,
    discounted_cash_flow_analysis yf_Ticker ticker y1 r g = Ok (Some v1) /\
    discounted_cash_flow_analysis yf_Ticker ticker y2 r g = Ok (Some v2) /\
    intrinsic_value v1 == intrinsic_value v2 /\
    intrinsic_value v1 == fcf * (1 + g) / (r - g) /\
    upside v1 == upside v2.
Proof.
  intros Hf Hpos H1 H2 Hg Hr Hinf.
  exists (valuation_of fcf y1 r g inf), (valuation_of fcf y2 r g inf).
  split; [now apply dcfa_Ok|]. split; [now apply dcfa_Ok|].
  cbn [valuation_of intrinsic_value upside].
  assert (E1 := intrinsic_closed fcf g r y1 ltac:(lia) Hr Hg).
  assert (E2 := intrinsic_closed fcf g r y2 ltac:(lia) Hr Hg).
  split; [now rewrite E1, E2|]. split; [exact E1|].
  destruct (Qltb 0 (dict_get inf "marketCap" 0)); [|reflexivity].
  unfold Spec.upsidePercent. now rewrite E1, E2.
Qed.

Lemma X10_witness :
  exists v1 v2,
    discounted_cash_flow_analysis Demo.yf "ACME" 1 (10 # 100) (5 # 100) = Ok (Some v1) /\
    discounted_cash_flow_analysis Demo.yf "ACME" 30 (10 # 100) (5 # 100) = Ok (Some v2) /\
    intrinsic_value v1 == intrinsic_value v2.
Proof.
  destruct (X10_horizon_independent Demo.yf "ACME" 1000000 1 30 (10 # 100) (5 # 100)
              [("marketCap"%string, 20000000)])
    as [v1 [v2 [H1 [H2 [E _]]]]].
  - vm_compute. reflexivity.
  - reflexivity.
  - lia.
  - lia.
  - intros E; vm_compute in E; discriminate E.
  - intros E; vm_compute in E; discriminate E.
  - vm_compute. reflexivity.
  - exists v1, v2. repeat split; assumption.
Defined.

(** X11.  In exact arithmetic, when the growth rate exceeds the discount
    rate, with 1 + growthRate > 0 and discountRate <> -1, the valuation
    does not fail: it returns a strictly negative intrinsic value, the
    positive discounted cash flows being outweighed by the negative
    terminal value.  (In double precision the two can cancel, and the
    powers can overflow.) *)
Theorem X11_growth_above_discount_negative
  (yf_Ticker : string -> Ticker) (ticker : string)
  (fcf : Q) (years : Z) (r g : Q) (inf : list (string * Q)) :
  calculate_fcf yf_Ticker ticker = Some fcf -> 0 < fcf -> (1 <= years)%Z ->
  -1 < g -> r < g -> ~ r == -1 ->
  info (yf_Ticker ticker) = Ok inf ->
  exists v,
    discounted_cash_flow_analysis yf_Ticker ticker years r g = Ok (Some v) /\
    intrinsic_value v < 0.
Proof.
  intros Hf Hpos Hy Hg Hrg Hr Hinf.
  exists (valuation_of fcf years r g inf).
  split; [apply dcfa_Ok; try assumption; intros E; lra|].
  cbn [valuation_of intrinsic_value].
  rewrite intrinsic_closed; [|lia|assumption|intros E; lra].
  assert (E : fcf * (1 + g) / (r - g) == - (fcf * (1 + g) / (g - r)))
    by (field; split; lra).
  rewrite E.
  assert (H : 0 < fcf * (1 + g) / (g - r)).
  { apply Qlt_shift_div_l; [lra|].
    assert (0 < fcf * (1 + g)) by (apply Qmult_lt_0_compat; lra). lra. }
  lra.
Qed.

Lemma X11_witness :
  exists v,
    discounted_cash_flow_analysis Demo.yf "ACME" 5 (5 # 100) (10 # 100) = Ok (Some v) /\
    intrinsic_value v < 0.
Proof.
  apply (X11_growth_above_discount_negative Demo.yf "ACME" 1000000 5 (5 # 100) (10 # 100)
           [("marketCap"%string, 20000000)]).
  - vm_compute. reflexivity.
  - reflexivity.
  - lia.
  - reflexivity.
  - reflexivity.
  - intros E; vm_compute in E; discriminate E.
  - vm_compute. reflexivity.
Defined.

(** ** Market capitalisation and upside *)

Lemma dict_get_missing {A : Type} (d : list (string * A)) (key : string) (default : A) :
  (forall v, ~ In (key, v) d) -> dict_get d key default = default.
Proof.
  induction d as [|[k v] d IH]; intros H; simpl; [reflexivity|].
  destruct (String.eqb k key) eqn:E.
  - apply String.eqb_eq in E. subst k. exfalso. apply (H v). now left.
  - apply IH. intros w Hw. apply (H w). now right.
Qed.

(** X12.  When the fetched info has no marketCap entry, every valuation
    that is returned reports a market capitalisation of 0 and an upside of
    0. *)
Theorem X12_market_cap_missing
  (yf_Ticker : string -> Ticker) (ticker : string)
  (years : Z) (r g : Q) (v : Valuation) (inf : list (string * Q)) :
  discounted_cash_flow_analysis yf_Ticker ticker years r g = Ok (Some v) ->
  info (yf_Ticker ticker) = Ok inf ->
  (forall q, ~ In ("marketCap"%string, q) inf) ->
  market_cap v = 0 /\ upside v = 0.
Proof.
  intros Hv Hinf Hkey.
  destruct (dcfa_inv _ _ _ _ _ _ Hv) as [fcf [p [inf' [_ [_ [_ [Hinf' ->]]]]]]].
  rewrite Hinf in Hinf'. injection Hinf' as <-.
  cbn [market_cap upside].
  rewrite (dict_get_missing inf "marketCap" 0 Hkey).
  split; reflexivity.
Qed.

Lemma X12_witness :
  market_cap (valuation_of 100000 5 (10 # 100) (5 # 100) []) = 0 /\
  upside (valuation_of 100000 5 (10 # 100) (5 # 100) []) = 0.
Proof.
  apply (X12_market_cap_missing Demo.yf "BARE" 5 (10 # 100) (5 # 100) _ []).
  - apply dcfa_Ok; try (vm_compute; reflexivity); try lia;
      intros E; vm_compute in E; discriminate E.
  - reflexivity.
  - intros q [].
Defined.

(** X13.  In every returned valuation with a strictly positive market
    capitalisation, the upside is strictly positive exactly when the
    intrinsic value exceeds the market capitalisation, and strictly
    negative exactly when it is below it. *)
Theorem X13_upside_sign
  (yf_Ticker : string -> Ticker) (ticker : string)
  (years : Z) (r g : Q) (v : Valuation) :
  discounted_cash_flow_analysis yf_Ticker ticker years r g = Ok (Some v) ->
  0 < market_cap v ->
  (0 < upside v <-> market_cap v < intrinsic_value v) /\
  (upside v < 0 <-> intrinsic_value v < market_cap v).
Proof.
  intros Hv Hmc.
  destruct (dcfa_inv _ _ _ _ _ _ Hv) as [fcf [p [inf [_ [_ [_ [_ ->]]]]]]].
  cbn [market_cap upside intrinsic_value] in *.
  set (mc := dict_get inf "marketCap" 0) in *.
  set (iv := intrinsic p).
  apply Qltb_true in Hmc. rewrite Hmc. apply Qltb_true in Hmc.
  unfold Spec.upsidePercent.
  assert (E : (iv - mc) / mc * 100 == (iv - mc) * (100 / mc)) by (field; lra).
  assert (Hk : 0 < 100 / mc) by (apply Qlt_shift_div_l; lra).
  rewrite E.
  split; split; intros H.
  - destruct (Qlt_le_dec mc iv) as [Hlt | Hle]; [exact Hlt|].
    assert (Hn : (iv - mc) * (100 / mc) <= 0).
    { rewrite Qmult_comm.
      setoid_replace 0 with (100 / mc * 0) by ring.
      apply Qmult_le_l; [exact Hk | lra]. }
    lra.
  - apply Qmult_lt_0_compat; lra.
  - destruct (Qlt_le_dec iv mc) as [Hlt | Hle]; [exact Hlt|].
    assert (Hn : 0 <= (iv - mc) * (100 / mc)).
    { apply Qmult_le_0_compat; lra. }
    lra.
  - assert (Hp : 0 < (mc - iv) * (100 / mc)) by (apply Qmult_lt_0_compat; lra).
    lra.
Qed.

Lemma X13_witness :
  0 < upside (valuation_of 1000000 5 (10 # 100) (5 # 100)
                [("marketCap"%string, 20000000)]).
Proof.
  apply (X13_upside_sign Demo.yf "ACME" 5 (10 # 100) (5 # 100)
           (valuation_of 1000000 5 (10 # 100) (5 # 100)
              [("marketCap"%string, 20000000)])).
  - apply dcfa_Ok; try (vm_compute; reflexivity); try lia;
      intros E; vm_compute in E; discriminate E.
  - reflexivity.
  - vm_compute. reflexivity.
Defined.

Lemma dcfa_discounted_list
  (yf_Ticker : string -> Ticker) (ticker : string)
  (fcf : Q) (years : Z) (r g : Q) (v : Valuation) :
  calculate_fcf yf_Ticker ticker = Some fcf -> (0 <= years)%Z -> ~ r == -1 ->
  discounted_cash_flow_analysis yf_Ticker ticker years r g = Ok (Some v) ->
  discounted_fcfs v = map (Spec.discountedFCF fcf g r) (range 1 (years + 1)).
Proof.
  intros Hf Hy Hr Hv.
  destruct (dcfa_inv _ _ _ _ _ _ Hv) as [fcf' [p [inf [Hf' [_ [Hp [_ ->]]]]]]].
  rewrite Hf in Hf'. injection Hf' as <-.
  apply project_discounted in Hp.
  rewrite <- (Z2Nat.id years) in Hp by exact Hy.
  rewrite discounted_fcfs_of_seq in Hp by (intros E; apply Hr; lra).
  injection Hp as Hp. cbn [discounted_fcfs]. rewrite <- Hp.
  rewrite <- (Z2Nat.id years) at 2 by exact Hy.
  now rewrite range_from_1, map_map.
Qed.

Lemma discountedFCF_step (fcf g r : Q) (i : Z) :
  (1 <= i)%Z -> ~ r == -1 ->
  Spec.discountedFCF fcf g r (i + 1)
  == Spec.discountedFCF fcf g r i * ((1 + g) / (1 + r)).
Proof.
  intros Hi Hr.
  assert (Hb : ~ 1 + r == 0) by (intros E; apply Hr; lra).
  unfold Spec.discountedFCF, Spec.futureFCF.
  rewrite !Qpower_plus' by lia. rewrite !Qpower_1_r.
  assert (HB : ~ (1 + r) ^ i == 0) by now apply Qpower_not_0.
  set (A := (1 + g) ^ i) in *. set (B := (1 + r) ^ i) in *.
  field. split; assumption.
Qed.

(** X14.  The discounted cash flows form a geometric sequence: in every
    returned valuation with a discount rate other than -1, the entry of
    year i + 1 is the entry of year i times (1 + g) / (1 + r).  For
    FCF > 0 and -1 < g < r each entry is therefore strictly smaller than
    the one of the year before (in exact arithmetic). *)
Theorem X14_discounted_fcfs_geometric
  (yf_Ticker : string -> Ticker) (ticker : string)
  (fcf : Q) (years : Z) (r g : Q) (v : Valuation) :
  calculate_fcf yf_Ticker ticker = Some fcf -> ~ r == -1 ->
  discounted_cash_flow_analysis yf_Ticker ticker years r g = Ok (Some v) ->
  forall i, (1 <= i < years)%Z ->
    nth (Z.to_nat i) (discounted_fcfs v) 0
    == nth (Z.to_nat (i - 1)) (discounted_fcfs v) 0 * ((1 + g) / (1 + r)) /\
    (0 < fcf -> -1 < g -> g < r ->
     nth (Z.to_nat i) (discounted_fcfs v) 0
     < nth (Z.to_nat (i - 1)) (discounted_fcfs v) 0).
Proof.
  intros Hf Hr Hv i Hi.
  rewrite (dcfa_discounted_list _ _ fcf years r g v Hf ltac:(lia) Hr Hv).
  replace (Z.to_nat i) with (Z.to_nat ((i + 1) - 1)) by lia.
  rewrite !nth_map_range by lia.
  pose proof (discountedFCF_step fcf g r i ltac:(lia) Hr) as E.
  split; [exact E|].
  intros Hpos Hg Hgr. rewrite E.
  assert (Hd : 0 < Spec.discountedFCF fcf g r i)
    by (apply discountedFCF_positive; lra).
  assert (Hq : (1 + g) / (1 + r) < 1) by (apply Qlt_shift_div_r; lra).
  set (d := Spec.discountedFCF fcf g r i) in *.
  set (q := (1 + g) / (1 + r)) in *.
  assert (H : 0 < d * (1 - q)) by (apply Qmult_lt_0_compat; lra).
  lra.
Qed.

Lemma X14_witness :
  nth 1 (discounted_fcfs (valuation_of 1000000 5 (10 # 100) (5 # 100)
                            [("marketCap"%string, 20000000)])) 0
  < nth 0 (discounted_fcfs (valuation_of 1000000 5 (10 # 100) (5 # 100)
                              [("marketCap"%string, 20000000)])) 0.
Proof.
  apply (X14_discounted_fcfs_geometric Demo.yf "ACME" 1000000 5 (10 # 100) (5 # 100)
           (valuation_of 1000000 5 (10 # 100) (5 # 100)
              [("marketCap"%string, 20000000)])) with (i := 1%Z).
  - vm_compute. reflexivity.
  - intros E; vm_compute in E; discriminate E.
  - apply dcfa_Ok; try (vm_compute; reflexivity); try lia;
      intros E; vm_compute in E; discriminate E.
  - lia.
  - reflexivity.
  - reflexivity.
  - reflexivity.
Defined.

(** ** Free cash flow: periods and labels *)

Lemma safe_get_missing_period (statement : DataFrame) (labels : list string) (col : string) :
  ~ In col (columns statement) ->
  (safe_get statement labels col = Ok 0 /\
   forall l, In l labels -> ~ In l (index statement)) \/
  (safe_get statement labels col = Raise KeyError /\
   exists l, In l labels /\ In l (index statement)).
Proof.
  intros Hc. induction labels as [|l labels IH]; simpl.
  - left. split; [reflexivity | intros l []].
  - destruct (mem l (index statement)) eqn:E.
    + right. split; [now apply loc_missing|].
      exists l. split; [now left | now apply mem_In].
    + apply mem_not_In in E.
      destruct IH as [[H0 Hn] | [Hk [l' [Hin Hidx]]]].
      * left. split; [exact H0|]. intros x [<- | Hx]; [exact E | now apply Hn].
      * right. split; [exact Hk|]. exists l'. split; [now right | exact Hidx].
Qed.

Lemma safe_get_preferred (statement : DataFrame) (l : string) (rest : list string)
  (col : string) :
  In l (index statement) -> In col (columns statement) ->
  safe_get statement (l :: rest) col = Ok (cell statement l col).
Proof.
  intros Hl Hc. simpl. apply mem_In in Hl. rewrite Hl. now apply loc_present.
Qed.

(** X15.  When the latest period of the income statement is not a column
    of the cash-flow statement, [calculate_fcf] returns None as soon as one
    of the depreciation, capital-expenditure or working-capital labels is a
    row of the cash-flow statement; when none of them is, it returns the
    EBIT alone, the three other components being 0. *)
Theorem X15_cash_flow_period_missing
  (yf_Ticker : string -> Ticker) (ticker : string)
  (income_stmt cashflow_stmt : DataFrame) (latest_year : string) (rest : list string) :
  financials (yf_Ticker ticker) = Ok income_stmt ->
  cashflow (yf_Ticker ticker) = Ok cashflow_stmt ->
  columns income_stmt = latest_year :: rest ->
  ~ In latest_year (columns cashflow_stmt) ->
  ((exists l, In l (depreciation_labels ++ capex_labels ++ wc_labels) /\
              In l (index cashflow_stmt)) ->
   calculate_fcf yf_Ticker ticker = None) /\
  ((forall l, In l (depreciation_labels ++ capex_labels ++ wc_labels) ->
              ~ In l (index cashflow_stmt)) ->
   exists ebit,
     safe_get income_stmt ebit_labels latest_year = Ok ebit /\
     calculate_fcf yf_Ticker ticker = Some (ebit + 0 - 0 - 0)).
Proof.
  intros Hinc Hcf Hcols Hmiss.
  assert (Hin : In latest_year (columns income_stmt)) by (rewrite Hcols; now left).
  destruct (safe_get_total income_stmt ebit_labels latest_year Hin) as [ebit He].
  assert (Hunfold : calculate_fcf yf_Ticker ticker
            = try_or_None
                (depreciation <- safe_get cashflow_stmt depreciation_labels latest_year ;;
                 capex <- safe_get cashflow_stmt capex_labels latest_year ;;
                 wc_change <- safe_get cashflow_stmt wc_labels latest_year ;;
                 Ok (ebit + depreciation - capex - wc_change))).
  { unfold calculate_fcf, fcf_body.
    rewrite Hinc, Hcf, !bind_Ok, Hcols. cbn [first_item].
    now rewrite bind_Ok, He, bind_Ok. }
  rewrite Hunfold.
  destruct (safe_get_missing_period cashflow_stmt depreciation_labels latest_year Hmiss)
    as [[Hd Hdn] | [Hd [l [Hl Hidx]]]]; rewrite Hd.
  2: { split; [reflexivity|]. intros Hnone. exfalso.
       apply (Hnone l); [apply in_or_app; now left | exact Hidx]. }
  rewrite bind_Ok.
  destruct (safe_get_missing_period cashflow_stmt capex_labels latest_year Hmiss)
    as [[Hc Hcn] | [Hc [l [Hl Hidx]]]]; rewrite Hc.
  2: { split; [reflexivity|]. intros Hnone. exfalso.
       apply (Hnone l); [|exact Hidx].
       apply in_or_app. right. apply in_or_app. now left. }
  rewrite bind_Ok.
  destruct (safe_get_missing_period cashflow_stmt wc_labels latest_year Hmiss)
    as [[Hw Hwn] | [Hw [l [Hl Hidx]]]]; rewrite Hw.
  2: { split; [reflexivity|]. intros Hnone. exfalso.
       apply (Hnone l); [|exact Hidx].
       apply in_or_app. right. apply in_or_app. now right. }
  rewrite bind_Ok. split.
  - intros [l [Hl Hidx]]. exfalso.
    apply in_app_or in Hl. destruct Hl as [Hl | Hl]; [exact (Hdn l Hl Hidx)|].
    apply in_app_or in Hl. destruct Hl as [Hl | Hl];
      [exact (Hcn l Hl Hidx) | exact (Hwn l Hl Hidx)].
  - intros _. exists ebit. split; [exact He | reflexivity].
Qed.

Lemma X15_witness :
  calculate_fcf Demo2.yf "LATE" = None /\
  exists ebit, calculate_fcf Demo2.yf "SLIM" = Some (ebit + 0 - 0 - 0).
Proof.
  split.
  - destruct (X15_cash_flow_period_missing Demo2.yf "LATE" Demo.income Demo2.cash_old
                "2023" ["2022"%string]) as [H _].
    + reflexivity.
    + reflexivity.
    + reflexivity.
    + intros [E | []]. discriminate E.
    + apply H. exists "Depreciation"%string. split; now left.
  - destruct (X15_cash_flow_period_missing Demo2.yf "SLIM" Demo.income Demo2.cash_other
                "2023" ["2022"%string]) as [_ H].
    + reflexivity.
    + reflexivity.
    + reflexivity.
    + intros [E | []]. discriminate E.
    + destruct H as [ebit [_ Hf]].
      * intros l Hl [E | []]. subst l. cbn in Hl.
        repeat (destruct Hl as [Hl | Hl]; [discriminate Hl|]). exact Hl.
      * exists ebit. exact Hf.
Defined.

(** X16.  When the preferred label of each component is a row of its
    statement and the latest period of the income statement is a column of
    the cash-flow statement, the FCF is the cell of "Operating Income" plus
    the cell of "Depreciation" minus the cells of "Capital Expenditures"
    and "Change in Working Capital" for that period; rows with the second
    labels are not read. *)
Theorem X16_fcf_from_preferred_labels
  (yf_Ticker : string -> Ticker) (ticker : string)
  (income_stmt cashflow_stmt : DataFrame) (latest_year : string) (rest : list string) :
  financials (yf_Ticker ticker) = Ok income_stmt ->
  cashflow (yf_Ticker ticker) = Ok cashflow_stmt ->
  columns income_stmt = latest_year :: rest ->
  In latest_year (columns cashflow_stmt) ->
  In "Operating Income"%string (index income_stmt) ->
  In "Depreciation"%string (index cashflow_stmt) ->
  In "Capital Expenditures"%string (index cashflow_stmt) ->
  In "Change in Working Capital"%string (index cashflow_stmt) ->
  calculate_fcf yf_Ticker ticker
  = Some (cell income_stmt "Operating Income" latest_year
          + cell cashflow_stmt "Depreciation" latest_year
          - cell cashflow_stmt "Capital Expenditures" latest_year
          - cell cashflow_stmt "Change in Working Capital" latest_year).
Proof.
  intros Hinc Hcf Hcols Hin He Hd Hc Hw.
  assert (Hin' : In latest_year (columns income_stmt)) by (rewrite Hcols; now left).
  unfold calculate_fcf, fcf_body.
  rewrite Hinc, Hcf, !bind_Ok, Hcols. cbn [first_item]. rewrite bind_Ok.
  unfold ebit_labels, depreciation_labels, capex_labels, wc_labels.
  rewrite (safe_get_preferred income_stmt) by assumption.
  rewrite bind_Ok, (safe_get_preferred cashflow_stmt) by assumption.
  rewrite bind_Ok, (safe_get_preferred cashflow_stmt) by assumption.
  rewrite bind_Ok, (safe_get_preferred cashflow_stmt) by assumption.
  reflexivity.
Qed.

Lemma X16_witness :
  calculate_fcf Demo.yf "ACME"
  = Some (cell Demo.income "Operating Income" "2023"
          + cell Demo.cash "Depreciation" "2023"
          - cell Demo.cash "Capital Expenditures" "2023"
          - cell Demo.cash "Change in Working Capital" "2023").
Proof.
  apply (X16_fcf_from_preferred_labels Demo.yf "ACME" Demo.income Demo.cash
           "2023" ["2022"%string]).
  - reflexivity.
  - reflexivity.
  - reflexivity.
  - now left.
  - right. now left.
  - now left.
  - right. now left.
  - right. right. now left.
Defined.

Lemma safe_get_ext (st1 st2 : DataFrame) (labels : list string) (col : string) :
  index st1 = index st2 ->
  (In col (columns st1) <-> In col (columns st2)) ->
  (forall l, cell st1 l col = cell st2 l col) ->
  safe_get st1 labels col = safe_get st2 labels col.
Proof.
  intros Hidx Hcol Hcell.
  assert (Hm : mem col (columns st1) = mem col (columns st2)).
  { destruct (mem col (columns st2)) eqn:E.
    - apply mem_In. apply Hcol. now apply mem_In.
    - apply mem_not_In. intros H. apply mem_not_In in E. apply E. now apply Hcol. }
  induction labels as [|l labels IH]; simpl; [reflexivity|].
  rewrite Hidx, IH. unfold loc. now rewrite Hm, Hcell.
Qed.

(** X17.  [calculate_fcf] reads the latest period only: two pairs of
    statements with the same rows, the same first income-statement period
    and the same amounts for that period give the same FCF, whatever the
    other periods and their amounts are. *)
Theorem X17_only_latest_period
  (yf1 yf2 : string -> Ticker) (t1 t2 : string)
  (inc1 inc2 cf1 cf2 : DataFrame) (latest_year : string) (rest1 rest2 : list string) :
  financials (yf1 t1) = Ok inc1 -> cashflow (yf1 t1) = Ok cf1 ->
  financials (yf2 t2) = Ok inc2 -> cashflow (yf2 t2) = Ok cf2 ->
  columns inc1 = latest_year :: rest1 -> columns inc2 = latest_year :: rest2 ->
  index inc1 = index inc2 -> index cf1 = index cf2 ->
  (In latest_year (columns cf1) <-> In latest_year (columns cf2)) ->
  (forall l, cell inc1 l latest_year = cell inc2 l latest_year) ->
  (forall l, cell cf1 l latest_year = cell cf2 l latest_year) ->
  calculate_fcf yf1 t1 = calculate_fcf yf2 t2.
Proof.
  intros Hi1 Hc1 Hi2 Hc2 Hcols1 Hcols2 Hidx Hidxc Hcol Hcell Hcellc.
  unfold calculate_fcf, fcf_body.
  rewrite Hi1, Hc1, Hi2, Hc2, !bind_Ok, Hcols1, Hcols2. cbn [first_item].
  rewrite !bind_Ok.
  rewrite (safe_get_ext inc1 inc2 ebit_labels latest_year Hidx);
    [|rewrite Hcols1, Hcols2; split; intros _; now left | exact Hcell].
  rewrite (safe_get_ext cf1 cf2 depreciation_labels latest_year Hidxc Hcol Hcellc).
  rewrite (safe_get_ext cf1 cf2 capex_labels latest_year Hidxc Hcol Hcellc).
  rewrite (safe_get_ext cf1 cf2 wc_labels latest_year Hidxc Hcol Hcellc).
  reflexivity.
Qed.

Lemma X17_witness :
  calculate_fcf Demo.yf "ACME" = calculate_fcf Demo2.yf "REST".
Proof.
  apply (X17_only_latest_period Demo.yf Demo2.yf "ACME" "REST"
           Demo.income Demo2.income_restated Demo.cash Demo.cash
           "2023" ["2022"%string] ["2021"%string]);
    try reflexivity.
  intros l. unfold Demo.income, Demo2.income_restated, cell, Demo.table.
  cbn [dict_get].
  destruct (String.eqb "Total Revenue" l); [reflexivity|].
  destruct (String.eqb "Operating Income" l); reflexivity.
Defined.

(** ** The valuation on NumPy float64 values: facts *)


















(** *** Equal rates *)




(** *** Underflow of the discounted cash flows in double precision *)

(** In double precision, FCF = 1,000,000, years = 1100, growthRate = -0.5
    and discountRate = 0 satisfy FCF > 0, years >= 1, 1 + growthRate > 0
    and 1 + discountRate > 0.  The valuation is computed, and the
    discounted cash flows of the years 1075 to 1100, 26 of the 1100
    entries, are 0.0: 0.5 ** i underflows to zero from i = 1075 on. *)
Lemma C9_counterexample :
  PrimFloat.ltb 0 1000000 = true /\
  PrimFloat.ltb 0 (PrimFloat.add 1 (-0.5)) = true /\
  PrimFloat.ltb 0 (PrimFloat.add 1 0) = true /\
  (exists p,
     F.project F.NumPyFloat64 1000000 1100 0 (-0.5) = Ok p /\
     List.length (F.discounted p) = 1100%nat /\
     PrimFloat.ltb 0 (nth 1073 (F.discounted p) 1%float) = true /\
     nth 1074 (F.discounted p) 1%float = 0%float /\
     PrimFloat.ltb 0 (nth 1074 (F.discounted p) 1%float) = false /\
     List.length (filter PrimFloat.is_zero (F.discounted p)) = 26%nat) /\
  (exists p,
     F.project F.PythonFloat 1000000 1100 0 (-0.5) = Ok p /\
     List.length (F.discounted p) = 1100%nat /\
     nth 1074 (F.discounted p) 1%float = 0%float /\
     List.length (filter PrimFloat.is_zero (F.discounted p)) = 26%nat).
Proof.
  split; [vm_compute; reflexivity|].
  split; [vm_compute; reflexivity|].
  split; [vm_compute; reflexivity|].
  split.
  - eexists. split; [vm_compute; reflexivity|].
    repeat split; vm_compute; reflexivity.
  - eexists. split; [vm_compute; reflexivity|].
    repeat split; vm_compute; reflexivity.
Qed.

(** *** A discount rate of -1 *)



